(** * ChittyID authentication middleware (src/chittyid/src/middleware/python.py)

    A shallow embedding of the token-verification and replay-protection
    engine: [JTICache], [JWKSClient] and [ChittyIDMiddleware].

    Conventions of the embedding.
    - Python objects that are mutated in place ([JTICache._memory_cache],
      [JWKSClient._cache], the Redis database behind [redis_client]) live in
      one explicit [World]; every method is a function in a state-and-exception
      monad over it.  An exception never rolls the world back.
    - What the outside world answers during one call (clock readings, the
      HTTP response of the key-set endpoint, whether a Redis command raises)
      is an explicit [Env] argument of that call.
    - Timestamps are integers (ticks of the clock); only order and addition
      are used by the code.
    - Library code is modelled next to the place that calls it and says so:
      PyJWT ([jwt.get_unverified_header], [jwt.decode]), the Redis commands
      EXISTS and SETEX, [httpx].  The compact-serialisation parser, the
      Ed25519 signature check and the public-key decoder stay abstract
      (section variables). *)

From stdpp Require Import base option list strings gmap fin_maps.
From Stdlib Require Import ZArith Lia Ascii String.

Local Open Scope Z_scope.
Local Open Scope string_scope.

(** ** Exceptions *)

(** The subclasses of [jwt.InvalidTokenError] that PyJWT raises on the paths
    used here. *)
Inductive InvalidTokenError : Type :=
| DecodeError

| InvalidAlgorithmError
| InvalidSignatureError
| ImmatureSignatureError
| ExpiredSignatureError
| InvalidIssuerError
| InvalidAudienceError
| MissingRequiredClaimError (claim : string).

(** Python exceptions other than [fastapi.HTTPException]. *)
Inductive PyExn : Type :=
| ValueError_MissingKid                       (* ValueError("Missing kid in token header") *)
| ValueError_UnknownKid (kid : string)        (* ValueError(f"Unknown key id: {kid}") *)
| ValueError_Validation (e : InvalidTokenError) (* ValueError(f"Token validation failed: {e}") *)
| JwtError (e : InvalidTokenError)            (* raised by PyJWT outside any try block *)
| HttpxError                                  (* transport failure, raise_for_status, bad JSON *)
| KeyBytesError                               (* base64 / from_public_bytes failure *)
| TypeError                                   (* the ChittyIDTokenClaims constructor *)
| CallbackError                               (* raised by on_token_verified *)
| RedisError                                  (* raised by a Redis command *)
| AppError.                                   (* raised by the downstream application *)

(** [error_description] texts; formatted strings keep their arguments. *)
Inductive Description : Type :=
| Literal (s : string)
| TrustLevelRequired (required actual : Z)
| RequiredScopes (scopes : list string)
| StrOf (e : PyExn).

(** The [WWW-Authenticate] header of the 403 responses:
    [Bearer scope="<scopes joined by a space>"] with an optional [level=]. *)
Record Challenge : Type := MkChallenge {
  ch_scope : list string;
  ch_level : option Z
}.

Record HTTPException : Type := MkHTTPException {
  status_code : Z;
  error : string;
  error_description : Description;
  www_authenticate : option Challenge
}.

Inductive Exn : Type :=
| Http (h : HTTPException)
| Py (e : PyExn).

(** ** The state-and-exception monad *)

Inductive Result (A : Type) : Type :=
| Ok (a : A)
| Raise (e : Exn).
Arguments Ok {A} a.
Arguments Raise {A} e.

Definition M (S A : Type) : Type := S -> Result A * S.

Definition ret {S A} (a : A) : M S A := fun s => (Ok a, s).
Definition raise {S A} (e : Exn) : M S A := fun s => (Raise e, s).
Definition bind {S A B} (m : M S A) (k : A -> M S B) : M S B :=
  fun s => match m s with
           | (Ok a, s') => k a s'
           | (Raise e, s') => (Raise e, s')
           end.
Definition get {S} : M S S := fun s => (Ok s, s).
Definition modify {S} (f : S -> S) : M S unit := fun s => (Ok tt, f s).

Notation "'let*' x := m 'in' k" := (bind m (fun x => k))
  (at level 10, x name, m at level 100, k at level 200, only parsing).

(** [try: m except Exception: h] *)
Definition try_except {S A} (m : M S A) (h : Exn -> M S A) : M S A :=
  fun s => match m s with
           | (Ok a, s') => (Ok a, s')
           | (Raise e, s') => h e s'
           end.

(** ** Data model *)

(** [aud: Union[str, List[str]]] *)
Inductive Audience : Type :=
| AudStr (s : string)
| AudList (l : list string).

(** [class ChittyIDTokenClaims] *)
Record ChittyIDTokenClaims : Type := MkClaims {
  iss : string;
  sub : string;
  aud : Audience;
  exp : Z;
  iat : Z;
  jti : string;
  lvl : Z;
  nbf : option Z;
  org : option string;
  tenant : option string;
  roles : option (list string);
  scope : option string;
  mcp_server_id : option string;
  permitted_tools : option (list string);
  rate_tier : option string
}.

(** The characters on which Python's [str.split()] splits.  A [string]
    stands for a Python [str] whose characters are code points below 256, one
    per character; among these the whitespace characters are space, \t \n
    \v \f \r, the separators 0x1c-0x1f, NEL (0x85) and the no-break space
    (0xa0). *)
Definition is_space (c : ascii) : bool :=
  let n := nat_of_ascii c in
  ((n =? 32) || ((9 <=? n) && (n <=? 13)) || ((28 <=? n) && (n <=? 31))
   || (n =? 133) || (n =? 160))%nat.

(** [cur] is the word being read, in reverse. *)
Fixpoint split_go (s : string) (cur : list ascii) : list string :=
  let flush (rest : list string) :=
    match cur with
    | [] => rest
    | _ => string_of_list_ascii (rev cur) :: rest
    end in
  match s with
  | EmptyString => flush []
  | String c s' =>
      if is_space c then flush (split_go s' []) else split_go s' (c :: cur)
  end.

Definition split (s : string) : list string := split_go s [].

(** [ChittyIDTokenClaims.scopes] *)
Definition scopes (c : ChittyIDTokenClaims) : list string :=
  match scope c with
  | Some s => if decide (s = "") then [] else split s
  | None => []
  end.

(** ** Stores *)

(** One entry of the key-set document: [key_data.get('kid')],
    [key_data.get('alg')], [key_data.get('x')]. *)
Record JWK : Type := MkJWK {
  jwk_kid : option string;
  jwk_alg : option string;
  jwk_x : option string
}.

(** The JSON object served by the key-set endpoint: its ['keys'] member, if
    any, and whether it has other members (an object is truthy in Python
    exactly when it has a member). *)
Record JWKS : Type := MkJWKS {
  keys : option (list JWK);
  other_members : bool
}.

Definition jwks_truthy (d : JWKS) : bool :=
  match keys d with Some _ => true | None => other_members d end.

(** [class JWKSClient] *)
Record JWKSClient : Type := MkJWKSClient {
  cache_ttl : Z;
  _cache : JWKS;
  _cache_time : Z
}.

(** [class JTICache]; [redis_client] says whether [self.redis_client] holds a
    client object. *)
Record JTICache : Type := MkJTICache {
  ttl : Z;
  redis_client : bool;
  _memory_cache : gmap string Z
}.

(** Effects that leave the process. *)
Inductive Event : Type :=
| HttpGet
| RedisExists (key : string)
| RedisSetex (key : string) (seconds : Z).

Record World : Type := MkWorld {
  jwks_client : JWKSClient;
  jti_cache : JTICache;
  redis_db : gmap string Z;     (* the Redis server: key to its expiry instant *)
  trace : list Event            (* most recent first *)
}.

(** What the outside answers during one call. *)
Record Env : Type := MkEnv {
  jwks_time : Z;                  (* time.time() in get_jwks *)
  http_response : option JWKS;    (* None: the GET or raise_for_status raises *)
  jwt_time : Z;                   (* the clock read by jwt.decode *)
  jti_time : Z;                   (* time.time() in check_and_set *)
  redis_time : Z;                 (* the clock of the Redis server *)
  exists_raises : bool;           (* redis_client.exists raises *)
  setex_raises : bool             (* redis_client.setex raises *)
}.

Definition set_jwks_client (f : JWKSClient -> JWKSClient) (w : World) : World :=
  MkWorld (f (jwks_client w)) (jti_cache w) (redis_db w) (trace w).
Definition set_memory_cache (f : gmap string Z -> gmap string Z) (w : World) : World :=
  MkWorld (jwks_client w)
          (MkJTICache (ttl (jti_cache w)) (redis_client (jti_cache w))
                      (f (_memory_cache (jti_cache w))))
          (redis_db w) (trace w).
Definition set_redis_db (f : gmap string Z -> gmap string Z) (w : World) : World :=
  MkWorld (jwks_client w) (jti_cache w) (f (redis_db w)) (trace w).
Definition log (e : Event) (w : World) : World :=
  MkWorld (jwks_client w) (jti_cache w) (redis_db w) (e :: trace w).
Definition emit (e : Event) : M World unit := modify (log e).

(** ** JTICache *)

(** [JTICache.__init__]; [from_url_raises] says whether [redis.from_url]
    raised. *)
Definition JTICache_init (redis_url : option string) (ttl : Z)
    (from_url_raises : bool) : JTICache :=
  {| ttl := ttl;
     redis_client :=
       match redis_url with
       | Some u => if decide (u = "") then false else negb from_url_raises
       | None => false
       end;
     _memory_cache := ∅ |}.

(** Redis EXISTS and SETEX (Redis server, modelled from the command
    reference): a key is reported until the clock of the server is past its
    expiry instant; SETEX refuses a time-to-live that is not positive. *)
Definition redis_exists (db : gmap string Z) (now : Z) (key : string) : bool :=
  match db !! key with
  | Some e => bool_decide (now <= e)
  | None => false
  end.

Definition redis_setex (db : gmap string Z) (now : Z) (key : string) (seconds : Z)
    : option (gmap string Z) :=
  if bool_decide (0 < seconds) then Some (<[key := now + seconds]> db) else None.

Definition client_exists (env : Env) (key : string) : M World bool :=
  let* _ := emit (RedisExists key) in
  if exists_raises env then raise (Py RedisError)
  else let* w := get in ret (redis_exists (redis_db w) (redis_time env) key).

Definition client_setex (env : Env) (key : string) (seconds : Z) : M World unit :=
  let* _ := emit (RedisSetex key seconds) in
  if setex_raises env then raise (Py RedisError)
  else
    let* w := get in
    match redis_setex (redis_db w) (redis_time env) key seconds with
    | Some db => modify (set_redis_db (fun _ => db))
    | None => raise (Py RedisError)
    end.

(** [JTICache._redis_check_and_set] *)
Definition _redis_check_and_set (env : Env) (jti : string) : M World bool :=
  let key := "chittyid:jti:" ++ jti in
  let* w := get in
  let* exists_ := client_exists env key in
  if negb exists_ then
    let* _ := client_setex env key (ttl (jti_cache w)) in
    ret true
  else ret false.

(** The keys of the entries whose value is below [now]:
    [[k for k, v in self._memory_cache.items() if v < now]]. *)
Definition expired_keys (m : gmap string Z) (now : Z) : list string :=
  (filter (fun kv : string * Z => kv.2 < now) (map_to_list m)).*1.

(** The block of [check_and_set] that follows its comment
    "Fallback to memory cache". *)
Definition memory_check_and_set (env : Env) (jti : string) : M World bool :=
  let now := jti_time env in
  let* w := get in
  if decide (is_Some (_memory_cache (jti_cache w) !! jti)) then ret false
  else
    let* _ := modify (set_memory_cache (insert jti (now + ttl (jti_cache w)))) in
    (* Clean old entries *)
    let* _ := modify (set_memory_cache (fun m => foldr delete m (expired_keys m now))) in
    ret true.

(** [JTICache.check_and_set] *)
Definition check_and_set (env : Env) (jti : string) : M World bool :=
  let* w := get in
  let* r := (if redis_client (jti_cache w)
             then try_except
                    (let* result := _redis_check_and_set env jti in ret (Some result))
                    (fun _ => ret None)
             else ret None) in
  match r with
  | Some result => ret result
  | None => memory_check_and_set env jti
  end.

(** ** JWKSClient *)

(** [JWKSClient.__init__] *)
Definition JWKSClient_init (cache_ttl : Z) : JWKSClient :=
  {| cache_ttl := cache_ttl; _cache := MkJWKS None false; _cache_time := 0 |}.

(** [JWKSClient.get_jwks] *)
Definition get_jwks (env : Env) : M World JWKS :=
  let now := jwks_time env in
  let* w := get in
  let self := jwks_client w in
  if bool_decide (now - _cache_time self < cache_ttl self) && jwks_truthy (_cache self)
  then ret (_cache self)
  else
    let* _ := emit HttpGet in
    match http_response env with
    | None => raise (Py HttpxError)
    | Some doc =>
        let* _ := modify (set_jwks_client (fun c => MkJWKSClient (cache_ttl c) doc now)) in
        ret doc
    end.

(** The test that opens [get_jwks]: the cached key set is younger than
    [cache_ttl] and is not the empty object. *)
Definition cache_fresh (env : Env) (w : World) : bool :=
  bool_decide (jwks_time env - _cache_time (jwks_client w) < cache_ttl (jwks_client w))
  && jwks_truthy (_cache (jwks_client w)).

(** ** Tokens *)

Record Header : Type := MkHeader {
  h_alg : option string;
  h_kid : option string
}.

(** The claims object of a token, member by member; [p_unknown] says whether
    it has a member that is not a field of [ChittyIDTokenClaims]. *)
Record Payload : Type := MkPayload {
  p_iss : option string;
  p_sub : option string;
  p_aud : option Audience;
  p_exp : option Z;
  p_iat : option Z;
  p_jti : option string;
  p_lvl : option Z;
  p_nbf : option Z;
  p_org : option string;
  p_tenant : option string;
  p_roles : option (list string);
  p_scope : option string;
  p_mcp_server_id : option string;
  p_permitted_tools : option (list string);
  p_rate_tier : option string;
  p_unknown : bool
}.

(** A token in compact form, parsed: its header, its claims (None when the
    middle segment is not a JSON object) and its signature bytes. *)
Record Jwt : Type := MkJwt {
  header : Header;
  payload : option Payload;
  signature : string
}.

(** Building [ChittyIDTokenClaims] from the claims object raises TypeError for an unexpected
    member and for a missing field without default. *)
Definition mk_claims (p : Payload) : option ChittyIDTokenClaims :=
  if p_unknown p then None
  else
    match p_iss p, p_sub p, p_aud p, p_exp p, p_iat p, p_jti p, p_lvl p with
    | Some iss, Some sub, Some aud, Some exp, Some iat, Some jti, Some lvl =>
        Some (MkClaims iss sub aud exp iat jti lvl (p_nbf p) (p_org p) (p_tenant p)
                       (p_roles p) (p_scope p) (p_mcp_server_id p)
                       (p_permitted_tools p) (p_rate_tier p))
    | _, _, _, _, _, _, _ => None
    end.

(** [class ChittyIDMiddleware]: the configuration fields; the two caches it
    owns live in the [World]. *)
Record ChittyIDMiddleware : Type := MkMiddleware {
  issuer : string;
  audience : option string;
  required_scopes : list string;
  min_trust_level : Z;
  skip_paths : list string;
  on_token_verified : option (ChittyIDTokenClaims -> option Exn)
}.

Record Request : Type := MkRequest {
  path : string;                    (* request.url.path *)
  authorization : option string     (* request.headers.get('authorization') *)
}.

(** [s[n:]] *)
Fixpoint drop_chars (n : nat) (s : string) : string :=
  match n, s with
  | O, _ => s
  | S n', String _ s' => drop_chars n' s'
  | S _, EmptyString => EmptyString
  end.

Definition lift {S A} (r : Result A) : M S A := fun s => (r, s).

Definition aud_values (a : Audience) : list string :=
  match a with
  | AudStr s => [s]
  | AudList l => l
  end.

Definition aud_falsy (a : Audience) : bool :=
  match a with
  | AudStr s => bool_decide (s = "")
  | AudList l => bool_decide (l = [])
  end.

(** PyJWT's claim validation as [jwt.decode] runs it here (leeway 0, no
    required claims): iat, nbf, exp, iss, aud, in that order. *)
Definition validate_claims (p : Payload) (issuer : string) (audience : option string)
    (now : Z) : option InvalidTokenError :=
  if match p_iat p with Some iat => bool_decide (now < iat) | None => false end
  then Some ImmatureSignatureError
  else if match p_nbf p with Some nbf => bool_decide (now < nbf) | None => false end
  then Some ImmatureSignatureError
  else if match p_exp p with Some exp => bool_decide (exp <= now) | None => false end
  then Some ExpiredSignatureError
  else
    match p_iss p with
    | None => Some (MissingRequiredClaimError "iss")
    | Some iss =>
        if negb (bool_decide (iss = issuer)) then Some InvalidIssuerError
        else
          match audience, p_aud p with
          | None, None => None
          | None, Some a => if aud_falsy a then None else Some InvalidAudienceError
          | Some _, None => Some (MissingRequiredClaimError "aud")
          | Some expected, Some a =>
              if aud_falsy a then Some (MissingRequiredClaimError "aud")
              else if bool_decide (expected ∈ aud_values a) then None
              else Some InvalidAudienceError
          end
    end.

(** The three 401/403 responses built inside [verify_token], and the two
    built by [dispatch]. *)
Definition token_expired : HTTPException :=
  MkHTTPException 401 "token_expired" (Literal "The access token has expired") None.
Definition replay_detected : HTTPException :=
  MkHTTPException 401 "invalid_token" (Literal "Token replay detected") None.
Definition insufficient_trust_level (self : ChittyIDMiddleware) (c : ChittyIDTokenClaims)
    : HTTPException :=
  MkHTTPException 403 "insufficient_trust_level"
    (TrustLevelRequired (min_trust_level self) (lvl c))
    (Some (MkChallenge (required_scopes self) (Some (min_trust_level self)))).
Definition insufficient_scope (self : ChittyIDMiddleware) : HTTPException :=
  MkHTTPException 403 "insufficient_scope"
    (RequiredScopes (required_scopes self))
    (Some (MkChallenge (required_scopes self) None)).
Definition unauthorized : HTTPException :=
  MkHTTPException 401 "unauthorized" (Literal "Missing or invalid authorization header") None.
Definition invalid_token (e : PyExn) : HTTPException :=
  MkHTTPException 401 "invalid_token" (StrOf e) None.

Section Middleware.

(** The parts of the libraries that stay abstract. *)
Variable PublicKey : Type.
(** PyJWT's reading of the compact form; None when
    [jwt.get_unverified_header] raises. *)
Variable jws_load : string -> option Jwt.
(** [Ed25519PublicKey.from_public_bytes(base64.urlsafe_b64decode(x + '=='))];
    None when it raises. *)
Variable from_public_bytes : string -> option PublicKey.
(** The Ed25519 check of a token's signature over its signing input. *)
Variable ed25519_verify : PublicKey -> Jwt -> bool.
(** The rest of the application, given the request and
    [request.state.chitty_id]. *)
Variable Response : Type.
Variable call_next : Request -> option ChittyIDTokenClaims -> Result Response.

(** The loop of [JWKSClient.get_key]. *)
Fixpoint key_loop (kid : string) (l : list JWK) : Result (option PublicKey) :=
  match l with
  | [] => Ok None
  | key_data :: rest =>
      if bool_decide (jwk_kid key_data = Some kid)
         && bool_decide (jwk_alg key_data = Some "EdDSA")
      then
        match jwk_x key_data with
        | Some x =>
            if bool_decide (x = "") then key_loop kid rest
            else
              match from_public_bytes x with
              | Some key => Ok (Some key)
              | None => Raise (Py KeyBytesError)
              end
        | None => key_loop kid rest
        end
      else key_loop kid rest
  end.

(** [JWKSClient.get_key] *)
Definition get_key (env : Env) (kid : string) : M World (option PublicKey) :=
  let* jwks := get_jwks env in
  lift (key_loop kid (default [] (keys jwks))).

(** PyJWT's [jwt.decode(token, key, algorithms=['EdDSA'], issuer=..,
    audience=.., options={verify_exp, verify_nbf})]: the envelope, the
    allowed algorithm, the signature, the claims object, then the
    registered claims. *)
Definition jwt_decode (token : string) (key : PublicKey) (issuer : string)
    (audience : option string) (now : Z) : InvalidTokenError + Payload :=
  match jws_load token with
  | None => inl DecodeError
  | Some t =>
      if negb (bool_decide (h_alg (header t) = Some "EdDSA")) then inl InvalidAlgorithmError
      else if negb (ed25519_verify key t) then inl InvalidSignatureError
      else
        match payload t with
        | None => inl DecodeError
        | Some p =>
            match validate_claims p issuer audience now with
            | Some e => inl e
            | None => inr p
            end
        end
  end.

(** [ChittyIDMiddleware.verify_token] *)
Definition verify_token (self : ChittyIDMiddleware) (env : Env) (token : string)
    : M World ChittyIDTokenClaims :=
  (* Decode header to get kid *)
  let* header :=
    match jws_load token with
    | Some t => ret (header t)
    | None => raise (Py (JwtError DecodeError))
    end in
  match h_kid header with
  | None => raise (Py ValueError_MissingKid)
  | Some kid =>
  if bool_decide (kid = "") then raise (Py ValueError_MissingKid) else
  (* Get public key *)
  let* public_key := get_key env kid in
  match public_key with
  | None => raise (Py (ValueError_UnknownKid kid))
  | Some public_key =>
  (* Verify JWT *)
  let* payload :=
    match jwt_decode token public_key (issuer self) (audience self) (jwt_time env) with
    | inr payload => ret payload
    | inl ExpiredSignatureError => raise (Http token_expired)
    | inl e => raise (Py (ValueError_Validation e))
    end in
  let* claims :=
    match mk_claims payload with
    | Some claims => ret claims
    | None => raise (Py TypeError)
    end in
  (* Check JTI for replay protection *)
  let* is_new := check_and_set env (jti claims) in
  if negb is_new then raise (Http replay_detected) else
  (* Check trust level *)
  if bool_decide (lvl claims < min_trust_level self)
  then raise (Http (insufficient_trust_level self claims)) else
  (* Check required scopes *)
  let token_scopes := scopes claims in
  let missing_scopes := filter (fun s => s ∉ token_scopes) (required_scopes self) in
  if negb (bool_decide (required_scopes self = []))
     && negb (bool_decide (missing_scopes = []))
  then raise (Http (insufficient_scope self))
  else ret claims
  end
  end.

(** [ChittyIDMiddleware.dispatch] *)
Definition dispatch (self : ChittyIDMiddleware) (env : Env) (request : Request)
    : M World Response :=
  (* Skip auth for certain paths *)
  if bool_decide (path request ∈ skip_paths self) then lift (call_next request None)
  else
    match authorization request with
    | None => raise (Http unauthorized)
    | Some auth_header =>
        if bool_decide (auth_header = "") || negb (String.prefix "Bearer " auth_header)
        then raise (Http unauthorized)
        else
          let token := drop_chars 7 auth_header in
          try_except
            (let* claims := verify_token self env token in
             let* _ :=
               match on_token_verified self with
               | Some callback =>
                   match callback claims with
                   | Some e => raise e
                   | None => ret tt
                   end
               | None => ret tt
               end in
             lift (call_next request (Some claims)))
            (fun e =>
               match e with
               | Http h => raise (Http h)
               | Py e => raise (Http (invalid_token e))
               end)
    end.

(** The steps of [verify_token] that come before replay admission (header,
    key, [jwt.decode], claims object), as one computation; lemma
    [verify_token_authenticate] shows that [verify_token] runs exactly this
    and then continues with [check_and_set]. *)
Definition authenticate (self : ChittyIDMiddleware) (env : Env) (token : string)
    : M World ChittyIDTokenClaims :=
  match jws_load token with
  | None => raise (Py (JwtError DecodeError))
  | Some t =>
      match h_kid (header t) with
      | None => raise (Py ValueError_MissingKid)
      | Some kid =>
          if bool_decide (kid = "") then raise (Py ValueError_MissingKid)
          else
            let* public_key := get_key env kid in
            match public_key with
            | None => raise (Py (ValueError_UnknownKid kid))
            | Some public_key =>
                match jwt_decode token public_key (issuer self) (audience self)
                                 (jwt_time env) with
                | inr payload =>
                    match mk_claims payload with
                    | Some claims => ret claims
                    | None => raise (Py TypeError)
                    end
                | inl ExpiredSignatureError => raise (Http token_expired)
                | inl e => raise (Py (ValueError_Validation e))
                end
            end
      end
  end.

(** The trust-level and scope checks that end [verify_token]. *)
Definition policy (self : ChittyIDMiddleware) (claims : ChittyIDTokenClaims)
    : Result ChittyIDTokenClaims :=
  if bool_decide (lvl claims < min_trust_level self)
  then Raise (Http (insufficient_trust_level self claims))
  else if negb (bool_decide (required_scopes self = []))
          && negb (bool_decide
                     (filter (fun s => s ∉ scopes claims) (required_scopes self) = []))
  then Raise (Http (insufficient_scope self))
  else Ok claims.

(** A sequence of [verify_token] calls, each with its own environment and
    token, whatever their outcomes. *)
Fixpoint run_calls (self : ChittyIDMiddleware) (calls : list (Env * string))
    (w : World) : World :=
  match calls with
  | [] => w
  | (env, token) :: rest => run_calls self rest (verify_token self env token w).2
  end.

(** The statement that a key identifier which a fresh cache does not serve
    costs exactly one fetch. *)
Definition one_fetch_unless_served (env : Env) (kid : string) (w : World) : Prop :=
  ~ (cache_fresh env w = true /\
     exists key, key_loop kid (default [] (keys (_cache (jwks_client w)))) = Ok (Some key)) ->
  trace (get_key env kid w).2 = HttpGet :: trace w.

(** The statement that a token declaring another algorithm is turned down
    with nothing fetched. *)
Definition rejected_before_key_lookup (self : ChittyIDMiddleware) (env : Env)
    (token : string) (w : World) : Prop :=
  forall t, jws_load token = Some t -> h_alg (header t) <> Some "EdDSA" ->
  trace (verify_token self env token w).2 = trace w.

(** The statement that a token whose [exp] is not in the future is answered
    with [token_expired], whatever its signature. *)
Definition expired_whatever_signature (self : ChittyIDMiddleware) (env : Env)
    (token : string) (w : World) : Prop :=
  forall t p e, jws_load token = Some t -> payload t = Some p -> p_exp p = Some e ->
  e <= jwt_time env ->
  (verify_token self env token w).1 = Raise (Http token_expired).

(** The statement that a token accepted once is answered with the replay
    error when it is presented again. *)
Definition second_call_replay (self : ChittyIDMiddleware) (env1 env2 : Env)
    (token : string) (w : World) : Prop :=
  forall claims w1, verify_token self env1 token w = (Ok claims, w1) ->
  (verify_token self env2 token w1).1 = Raise (Http replay_detected).

(** The statement that a token turned down by the policy checks is answered
    with the replay error when it is presented again. *)
Definition policy_rejection_then_replay (self : ChittyIDMiddleware) (env1 env2 : Env)
    (token : string) (w : World) : Prop :=
  forall h w1, verify_token self env1 token w = (Raise (Http h), w1) ->
  status_code h = 403 ->
  (verify_token self env2 token w1).1 = Raise (Http replay_detected).

End Middleware.

(** [ChittyIDMiddleware.__init__]: the configuration and the initial world.
    [JWKSClient(jwks_uri)] takes the default [cache_ttl] of 3600. *)
Definition ChittyIDMiddleware_init (issuer : string) (audience : option string)
    (required_scopes : option (list string)) (min_trust_level : Z)
    (jti_cache_redis_url : option string) (jti_cache_ttl : Z)
    (skip_paths : option (list string))
    (on_token_verified : option (ChittyIDTokenClaims -> option Exn))
    (from_url_raises : bool) (db : gmap string Z) : ChittyIDMiddleware * World :=
  (MkMiddleware issuer audience (default [] required_scopes) min_trust_level
                (default [] skip_paths) on_token_verified,
   MkWorld (JWKSClient_init 3600)
           (JTICache_init jti_cache_redis_url jti_cache_ttl from_url_raises)
           db []).

(** ** Executor threads

    [check_and_set] hands [_redis_check_and_set] to the default executor
    ([run_in_executor(None, ...)]), a thread pool: calls made for different
    requests run on different threads and interleave at the Redis commands.
    A thread is at its EXISTS, at its SETEX, or done. *)
Inductive Thread : Type :=
| AtExists (jti : string)
| AtSetex (jti : string)
| Returned (result : bool)
| Raised.

(** One Redis command of one thread, the server clock reading [now]. *)
Definition thread_step (ttl now : Z) (db : gmap string Z) (t : Thread)
    : option (gmap string Z * Thread) :=
  match t with
  | AtExists jti =>
      let key := "chittyid:jti:" ++ jti in
      Some (db, if negb (redis_exists db now key) then AtSetex jti else Returned false)
  | AtSetex jti =>
      let key := "chittyid:jti:" ++ jti in
      match redis_setex db now key ttl with
      | Some db' => Some (db', Returned true)
      | None => Some (db, Raised)
      end
  | Returned _ | Raised => None
  end.

(** Any thread of the pool that is not done may take the next step. *)
Inductive pool_step (ttl : Z) : gmap string Z * list Thread -> gmap string Z * list Thread -> Prop :=
| pool_step_thread db db' pool i t t' now :
    pool !! i = Some t ->
    thread_step ttl now db t = Some (db', t') ->
    pool_step ttl (db, pool) (db', <[i := t']> pool).

(** ** Vocabulary of the replay properties *)

(** The map the memory block leaves when it admits [jti]. *)
Definition admitted_map (m : gmap string Z) (jti : string) (now ttl : Z) : gmap string Z :=
  foldr delete (<[jti := now + ttl]> m) (expired_keys (<[jti := now + ttl]> m) now).

(** The statement that a call made with a shared client never turns to the
    process-local store. *)
Definition no_fallback (env : Env) (jti : string) (w : World) : Prop :=
  redis_client (jti_cache w) = true ->
  _memory_cache (jti_cache (check_and_set env jti w).2) = _memory_cache (jti_cache w).

(** A thread that runs its two commands with nothing in between. *)
Definition thread_run (ttl now : Z) (db : gmap string Z) (t : Thread)
    : gmap string Z * Thread :=
  match thread_step ttl now db t with
  | Some (db1, t1) =>
      match thread_step ttl now db1 t1 with
      | Some r => r
      | None => (db1, t1)
      end
  | None => (db, t)
  end.

(** [jti] is recorded, with expiry instant [e], in the store that the
    configuration selects. *)
Definition marked (w : World) (jti : string) (e : Z) : Prop :=
  if redis_client (jti_cache w)
  then redis_db w !! ("chittyid:jti:" ++ jti) = Some e
  else _memory_cache (jti_cache w) !! jti = Some e.

(** The instant at which an identifier admitted under [env] stops being
    retained. *)
Definition retention_end (w : World) (env : Env) : Z :=
  (if redis_client (jti_cache w) then redis_time env else jti_time env)
  + ttl (jti_cache w).

(** The call made under [env] falls within the retention window opened by an
    admission under [env1]: before the expiry instant on the clock of Redis,
    up to the expiry instant on the clock of the memory sweep. *)
Definition within_retention (w : World) (env1 env : Env) : Prop :=
  if redis_client (jti_cache w)
  then redis_time env < retention_end w env1
  else jti_time env <= retention_end w env1.

(** Both calls are answered by the store that the configuration selects: with
    a client, Redis raises in neither. *)
Definition same_store (w : World) (env1 env2 : Env) : Prop :=
  redis_client (jti_cache w) = true ->
  exists_raises env1 = false /\ setex_raises env1 = false /\ exists_raises env2 = false.

(** ** Concrete instances used by the examples *)

(** Keys are their own bytes; a signature verifies when it equals the key. *)
Definition demo_from_public_bytes (x : string) : option string := Some x.
Definition demo_verify (key : string) (t : Jwt) : bool := bool_decide (signature t = key).
Definition demo_call_next (_ : Request) (_ : option ChittyIDTokenClaims) : Result unit := Ok tt.

Definition demo_payload (jti : string) (exp lvl : Z) (scope : option string) : Payload :=
  MkPayload (Some "https://registry.chitty.cc") (Some "agent") (Some (AudStr "mcp://svc"))
            (Some exp) (Some 0) (Some jti) (Some lvl) None None None None scope
            None None None false.

(** Four tokens: a good one, one declaring RS256, one with a wrong
    signature and one without key identifier. *)
Definition demo_load (token : string) : option Jwt :=
  if bool_decide (token = "good") then
    Some (MkJwt (MkHeader (Some "EdDSA") (Some "k1"))
                (Some (demo_payload "j1" 1000 2 (Some "mcp:invoke tools:read"))) "key1")
  else if bool_decide (token = "weak") then
    Some (MkJwt (MkHeader (Some "EdDSA") (Some "k1"))
                (Some (demo_payload "j2" 1000 0 None)) "key1")
  else if bool_decide (token = "rs256") then
    Some (MkJwt (MkHeader (Some "RS256") (Some "k1"))
                (Some (demo_payload "j3" 1000 2 None)) "key1")
  else if bool_decide (token = "forged") then
    Some (MkJwt (MkHeader (Some "EdDSA") (Some "k1"))
                (Some (demo_payload "j4" 50 2 None)) "other")
  else None.

Definition demo_jwks : JWKS :=
  MkJWKS (Some [MkJWK (Some "k1") (Some "EdDSA") (Some "key1")]) false.

Definition demo_self : ChittyIDMiddleware :=
  MkMiddleware "https://registry.chitty.cc" (Some "mcp://svc")
               ["mcp:invoke"; "tools:read"] 1 ["/health"] None.

(** A world with the given client flag, an empty replay store and an empty
    key cache. *)
Definition demo_world (client : bool) : World :=
  MkWorld (JWKSClient_init 3600) (MkJTICache 3600 client ∅) ∅ [].

(** An environment at time [now] in which the key-set endpoint serves
    [demo_jwks] and Redis raises as given. *)
Definition demo_env (now : Z) (redis_down : bool) : Env :=
  MkEnv now (Some demo_jwks) now now now redis_down redis_down.

(** The claims of the tokens "good" and "weak". *)
Definition demo_good_claims : ChittyIDTokenClaims :=
  MkClaims "https://registry.chitty.cc" "agent" (AudStr "mcp://svc") 1000 0 "j1" 2
           None None None None (Some "mcp:invoke tools:read") None None None.
Definition demo_weak_claims : ChittyIDTokenClaims :=
  MkClaims "https://registry.chitty.cc" "agent" (AudStr "mcp://svc") 1000 0 "j2" 0
           None None None None None None None None.

(** A world whose key cache was filled with [demo_jwks] at time 0. *)
Definition demo_cached_world : World :=
  MkWorld (MkJWKSClient 3600 demo_jwks 0) (MkJTICache 3600 false ∅) ∅ [].

(** The key set after a rotation that added the key "k2", and an
    environment whose endpoint serves it. *)
Definition demo_rotated_jwks : JWKS :=
  MkJWKS (Some [MkJWK (Some "k1") (Some "EdDSA") (Some "key1");
                MkJWK (Some "k2") (Some "EdDSA") (Some "key2")]) false.
Definition demo_rotated_env (now : Z) : Env :=
  MkEnv now (Some demo_rotated_jwks) now now now false false.

Abbreviation demo_get_key := (get_key string demo_from_public_bytes).
Abbreviation demo_authenticate :=
  (authenticate string demo_load demo_from_public_bytes demo_verify).
Abbreviation demo_verify_token :=
  (verify_token string demo_load demo_from_public_bytes demo_verify).
Abbreviation demo_run_calls :=
  (run_calls string demo_load demo_from_public_bytes demo_verify).
Abbreviation demo_dispatch :=
  (dispatch string demo_load demo_from_public_bytes demo_verify unit demo_call_next).

(** ** Route-level helpers *)

(** The two responses raised outside the middleware; their [detail] is a
    plain text:
    [HTTPException(401, "ChittyID authentication required")] and
    [HTTPException(403, f"Missing required scopes: {', '.join(missing)}")]. *)
Inductive RouteError : Type :=
| AuthenticationRequired
| MissingRequiredScopes (missing_scopes : list string).

Definition route_status (e : RouteError) : Z :=
  match e with
  | AuthenticationRequired => 401
  | MissingRequiredScopes _ => 403
  end.

(** [get_chitty_id_claims]: the body of the dependency, given
    [request.state.chitty_id] when the attribute is set.  (The [credentials]
    parameter is resolved by FastAPI and not used by the body.) *)
Definition get_chitty_id_claims (chitty_id : option ChittyIDTokenClaims)
    : RouteError + ChittyIDTokenClaims :=
  match chitty_id with
  | Some claims => inr claims
  | None => inl AuthenticationRequired
  end.

(** [has_scope], [has_role], [has_tool], [get_trust_level] *)
Definition has_scope (claims : ChittyIDTokenClaims) (scope : string) : bool :=
  bool_decide (scope ∈ scopes claims).
Definition has_role (claims : ChittyIDTokenClaims) (role : string) : bool :=
  bool_decide (role ∈ default [] (roles claims)).
Definition has_tool (claims : ChittyIDTokenClaims) (tool : string) : bool :=
  bool_decide (tool ∈ default [] (permitted_tools claims)).
Definition get_trust_level (claims : ChittyIDTokenClaims) : Z := lvl claims.

(** A positional argument of a decorated handler: a [Request], with its
    [state.chitty_id] when set, or anything else. *)
Inductive Arg : Type :=
| ArgRequest (chitty_id : option ChittyIDTokenClaims)
| ArgOther.

(** The loop of the wrapper: the first positional argument that is a
    [Request]. *)
Fixpoint first_request (args : list Arg) : option (option ChittyIDTokenClaims) :=
  match args with
  | [] => None
  | ArgRequest chitty_id :: _ => Some chitty_id
  | ArgOther :: rest => first_request rest
  end.

(** The wrapper that [require_scopes] builds around [func]; keyword arguments are
    handed to [func] untouched and are not searched for a [Request]. *)
Definition require_scopes {A : Type} (scopes : list string) (func : list Arg -> A)
    (args : list Arg) : RouteError + A :=
  match first_request args with
  | Some (Some claims) =>
      let missing_scopes := filter (fun s => negb (has_scope claims s)) scopes in
      if bool_decide (missing_scopes = []) then inr (func args)
      else inl (MissingRequiredScopes missing_scopes)
  | _ => inr (func args)
  end.

(** Python's [' '.join(words)]. *)
Fixpoint join_space (words : list string) : string :=
  match words with
  | [] => ""
  | [w] => w
  | w :: rest => w ++ " " ++ join_space rest
  end.

(** A word that [str.split()] returns unchanged: not empty, no whitespace. *)
Fixpoint no_space (s : string) : bool :=
  match s with
  | EmptyString => true
  | String c s' => negb (is_space c) && no_space s'
  end.
Definition is_word (s : string) : bool := negb (bool_decide (s = "")) && no_space s.

(** The application behind the middleware when the route is a handler
    decorated with [require_scopes]: the wrapper, called with the request.
    An HTTPException of the route is turned into the response by FastAPI
    before [call_next] returns. *)
Definition decorated_app {R : Type} (scopes_wanted : list string) (handler : Request -> R)
    (request : Request) (chitty_id : option ChittyIDTokenClaims)
    : Result (RouteError + R) :=
  Ok (require_scopes scopes_wanted (fun _ => handler request) [ArgRequest chitty_id]).

(** A middleware with the defaults of the constructor for audience, scopes
    and exempt paths, and a token without audience for it. *)
Definition demo_open_self : ChittyIDMiddleware :=
  MkMiddleware "https://registry.chitty.cc" None [] 1 [] None.
Definition demo_open_claims : ChittyIDTokenClaims :=
  MkClaims "https://registry.chitty.cc" "agent" (AudStr "") 1000 0 "j9" 1
           None None None None None None None None.
Definition demo_load_open (token : string) : option Jwt :=
  if bool_decide (token = "open") then
    Some (MkJwt (MkHeader (Some "EdDSA") (Some "k1"))
                (Some (MkPayload (Some "https://registry.chitty.cc") (Some "agent")
                                 (Some (AudStr "")) (Some 1000) (Some 0) (Some "j9")
                                 (Some 1) None None None None None None None None false))
                "key1")
  else None.

(** * Properties *)

Ltac run :=
  unfold bind, ret, raise, get, modify, lift, try_except, emit in *; simpl in *.

(** ** The process-local store *)

Lemma elem_of_expired_keys (m : gmap string Z) (now : Z) (k : string) :
  k ∈ expired_keys m now ↔ ∃ v, m !! k = Some v ∧ v < now.
Proof.
  unfold expired_keys. rewrite list_elem_of_fmap. split.
  - intros [[k' v] [-> Hin]].
    apply list_elem_of_filter in Hin as [Hlt Hin].
    apply elem_of_map_to_list in Hin. eauto.
  - intros (v & Hk & Hlt). exists (k, v). split; [done|].
    apply list_elem_of_filter. split; [done|]. by apply elem_of_map_to_list.
Qed.

(** The sweep keeps exactly the entries that have not expired. *)
Lemma lookup_sweep (m : gmap string Z) (now : Z) (k : string) :
  foldr delete m (expired_keys m now) !! k =
  match m !! k with
  | Some v => if decide (v < now) then None else Some v
  | None => None
  end.
Proof.
  destruct (decide (k ∈ expired_keys m now)) as [Hin|Hout].
  - rewrite lookup_foldr_delete by done.
    apply elem_of_expired_keys in Hin as (v & -> & Hlt).
    by rewrite decide_True.
  - rewrite lookup_foldr_delete_not_elem_of by done.
    destruct (m !! k) as [v|] eqn:Hk; [|done].
    destruct (decide (v < now)) as [Hlt|]; [|done].
    exfalso. apply Hout, elem_of_expired_keys. eauto.
Qed.

Lemma memory_check_and_set_present env jti w :
  is_Some (_memory_cache (jti_cache w) !! jti) ->
  memory_check_and_set env jti w = (Ok false, w).
Proof.
  intros Hin. unfold memory_check_and_set. run. by rewrite decide_True.
Qed.

Lemma memory_check_and_set_absent env jti w :
  _memory_cache (jti_cache w) !! jti = None ->
  memory_check_and_set env jti w =
  (Ok true,
   set_memory_cache
     (fun m => admitted_map m jti (jti_time env) (ttl (jti_cache w))) w).
Proof.
  intros Hout. unfold memory_check_and_set. run.
  rewrite decide_False; [done|]. rewrite Hout. by intros [? ?].
Qed.

Lemma lookup_admitted_map m jti now ttl k :
  admitted_map m jti now ttl !! k =
  match <[jti := now + ttl]> m !! k with
  | Some v => if decide (v < now) then None else Some v
  | None => None
  end.
Proof. apply lookup_sweep. Qed.

Lemma check_and_set_local env jti w :
  redis_client (jti_cache w) = false ->
  check_and_set env jti w = memory_check_and_set env jti w.
Proof. intros Hc. unfold check_and_set. run. by rewrite Hc. Qed.

(** C10.  In the process-local store membership is tested before anything is
    swept, and the sweep runs only when a new identifier is admitted:
    (1) an identifier present in the map is refused and the world is left
    untouched, even when its recorded expiry is already in the past;
    (2) an entry that a call removes was expired, and that call admitted
    another identifier, one that was not in the map;
    (3) such an admission does remove every expired entry. *)
Theorem stale_entry_refused_until_other_admission env jti w :
  redis_client (jti_cache w) = false ->
  (forall v, _memory_cache (jti_cache w) !! jti = Some v ->
             check_and_set env jti w = (Ok false, w)) /\
  (forall k v, _memory_cache (jti_cache w) !! k = Some v ->
     _memory_cache (jti_cache (check_and_set env jti w).2) !! k = None ->
     k <> jti /\ v < jti_time env /\
     _memory_cache (jti_cache w) !! jti = None /\
     (check_and_set env jti w).1 = Ok true) /\
  (forall k v, _memory_cache (jti_cache w) !! k = Some v ->
     v < jti_time env -> k <> jti ->
     _memory_cache (jti_cache w) !! jti = None ->
     _memory_cache (jti_cache (check_and_set env jti w).2) !! k = None).
Proof.
  intros Hc. rewrite check_and_set_local by done. repeat split.
  - intros v Hv. apply memory_check_and_set_present. eauto.
  - destruct (_memory_cache (jti_cache w) !! jti) as [vj|] eqn:Hj.
    + rewrite memory_check_and_set_present in H0 by eauto. simpl in H0. congruence.
    + intros ->. congruence.
  - destruct (_memory_cache (jti_cache w) !! jti) as [vj|] eqn:Hj.
    + rewrite memory_check_and_set_present in H0 by eauto. simpl in H0. congruence.
    + rewrite memory_check_and_set_absent in H0 by done. simpl in H0.
      rewrite lookup_admitted_map in H0.
      destruct (decide (k = jti)) as [->|Hne]; [congruence|].
      rewrite lookup_insert_ne, H in H0 by done.
      destruct (decide (v < jti_time env)); [done|congruence].
  - destruct (_memory_cache (jti_cache w) !! jti) as [vj|] eqn:Hj; [|done].
    rewrite memory_check_and_set_present in H0 by eauto. simpl in H0. congruence.
  - destruct (_memory_cache (jti_cache w) !! jti) as [vj|] eqn:Hj.
    + rewrite memory_check_and_set_present in H0 by eauto. simpl in H0. congruence.
    + by rewrite memory_check_and_set_absent.
  - intros k v Hk Hlt Hne Hj. rewrite memory_check_and_set_absent by done. simpl.
    rewrite lookup_admitted_map, lookup_insert_ne, Hk by done.
    by rewrite decide_True.
Qed.

Example stale_entry_refused_example :
  redis_client (jti_cache (MkWorld (JWKSClient_init 3600)
                                   (MkJTICache 3600 false {["old" := 5]}) ∅ [])) = false /\
  check_and_set (demo_env 100 false) "old"
    (MkWorld (JWKSClient_init 3600) (MkJTICache 3600 false {["old" := 5]}) ∅ [])
  = (Ok false, MkWorld (JWKSClient_init 3600) (MkJTICache 3600 false {["old" := 5]}) ∅ []).
Proof.
  split; [reflexivity|].
  apply (proj1 (stale_entry_refused_until_other_admission (demo_env 100 false) "old"
                  (MkWorld (JWKSClient_init 3600) (MkJTICache 3600 false {["old" := 5]}) ∅ [])
                  eq_refl) 5).
  reflexivity.
Defined.

(** ** The shared store and the fallback *)

Lemma redis_check_and_set_eq env jti w :
  _redis_check_and_set env jti w =
  let key := "chittyid:jti:" ++ jti in
  let w1 := log (RedisExists key) w in
  if exists_raises env then (Raise (Py RedisError), w1)
  else if redis_exists (redis_db w) (redis_time env) key then (Ok false, w1)
  else
    let w2 := log (RedisSetex key (ttl (jti_cache w))) w1 in
    if setex_raises env then (Raise (Py RedisError), w2)
    else
      match redis_setex (redis_db w) (redis_time env) key (ttl (jti_cache w)) with
      | Some db => (Ok true, set_redis_db (fun _ => db) w2)
      | None => (Raise (Py RedisError), w2)
      end.
Proof.
  unfold _redis_check_and_set, client_exists, client_setex. run.
  destruct (exists_raises env); [done|].
  destruct (redis_exists _ _ _); [done|]. simpl.
  destruct (setex_raises env); [done|].
  by destruct (redis_setex _ _ _ _).
Qed.

Lemma check_and_set_shared env jti w :
  redis_client (jti_cache w) = true ->
  check_and_set env jti w =
  match _redis_check_and_set env jti w with
  | (Ok result, w') => (Ok result, w')
  | (Raise _, w') => memory_check_and_set env jti w'
  end.
Proof.
  intros Hc. unfold check_and_set. run. rewrite Hc.
  by destruct (_redis_check_and_set env jti w) as [[r|e] w'].
Qed.

(** The Redis path leaves the configuration and the memory cache alone. *)
Lemma redis_check_and_set_frame env jti w :
  jti_cache (_redis_check_and_set env jti w).2 = jti_cache w /\
  jwks_client (_redis_check_and_set env jti w).2 = jwks_client w.
Proof.
  rewrite redis_check_and_set_eq. simpl.
  repeat (case_match; simpl; try done).
Qed.

(** The memory block leaves Redis, the trace and the key cache alone, and
    keeps the client flag and the retention time. *)
Lemma memory_check_and_set_frame env jti w :
  redis_db (memory_check_and_set env jti w).2 = redis_db w /\
  trace (memory_check_and_set env jti w).2 = trace w /\
  jwks_client (memory_check_and_set env jti w).2 = jwks_client w /\
  redis_client (jti_cache (memory_check_and_set env jti w).2) = redis_client (jti_cache w) /\
  ttl (jti_cache (memory_check_and_set env jti w).2) = ttl (jti_cache w).
Proof.
  unfold memory_check_and_set. run. by case_decide.
Qed.

(** C5, as the code has it.  The client is chosen once, in the constructor:
    there is one exactly when a non-empty URL was given and [redis.from_url]
    did not raise, and no call changes that.  Without a client every call is
    served by the memory block.  With a client a call is served by Redis when
    its commands return, and by the memory block, on the world the failed
    attempt left, when one of them raises.  The Redis path never touches the
    memory cache and the memory block never touches Redis. *)
Theorem replay_store_selection url ttl0 from_url_raises env jti w :
  (redis_client (JTICache_init url ttl0 from_url_raises) = true <->
   (exists u, url = Some u /\ u <> "") /\ from_url_raises = false) /\
  redis_client (jti_cache (check_and_set env jti w).2) = redis_client (jti_cache w) /\
  check_and_set env jti w =
    (if redis_client (jti_cache w)
     then match _redis_check_and_set env jti w with
          | (Ok result, w') => (Ok result, w')
          | (Raise _, w') => memory_check_and_set env jti w'
          end
     else memory_check_and_set env jti w) /\
  _memory_cache (jti_cache (_redis_check_and_set env jti w).2)
    = _memory_cache (jti_cache w) /\
  redis_db (memory_check_and_set env jti w).2 = redis_db w /\
  trace (memory_check_and_set env jti w).2 = trace w.
Proof.
  split; [|split; [|split; [|split; [|split]]]].
  - unfold JTICache_init. simpl. destruct url as [u|].
    + case_decide as Hu.
      * split; [done|]. intros [(u' & [= <-] & Hne) _]. done.
      * destruct from_url_raises; simpl; split; try done.
        -- intros [_ ?]. done.
        -- intros _. split; [|done]. eauto.
    + split; [done|]. intros [(u & ? & _) _]. done.
  - destruct (redis_client (jti_cache w)) eqn:Hc.
    + rewrite check_and_set_shared by done.
      pose proof (redis_check_and_set_frame env jti w) as [Hf _].
      destruct (_redis_check_and_set env jti w) as [[r|e] w'] eqn:Hr; simpl in *.
      * by rewrite Hf.
      * destruct (memory_check_and_set_frame env jti w') as (_ & _ & _ & -> & _).
        by rewrite Hf.
    + rewrite check_and_set_local by done.
      by destruct (memory_check_and_set_frame env jti w) as (_ & _ & _ & -> & _).
  - destruct (redis_client (jti_cache w)) eqn:Hc.
    + by apply check_and_set_shared.
    + by apply check_and_set_local.
  - by destruct (redis_check_and_set_frame env jti w) as [-> _].
  - apply memory_check_and_set_frame.
  - apply memory_check_and_set_frame.
Qed.

(** With a client configured and Redis raising, the call is answered from the
    memory cache, which records the identifier. *)
Lemma fallback_on_redis_error :
  ~ no_fallback (demo_env 10 true) "j1" (demo_world true).
Proof.
  intros H. specialize (H eq_refl).
  apply (f_equal (fun m : gmap string Z => m !! "j1")) in H.
  vm_compute in H. discriminate.
Qed.

(** ** Racing admissions on the shared store *)

(** The thread program is [_redis_check_and_set] cut at its Redis commands. *)
Lemma thread_run_is_redis_check_and_set env jti w :
  exists_raises env = false -> setex_raises env = false ->
  thread_run (ttl (jti_cache w)) (redis_time env) (redis_db w) (AtExists jti)
  = (redis_db (_redis_check_and_set env jti w).2,
     match (_redis_check_and_set env jti w).1 with
     | Ok result => Returned result
     | Raise _ => Raised
     end).
Proof.
  intros He Hs. rewrite redis_check_and_set_eq. unfold thread_run. simpl.
  rewrite He, Hs.
  destruct (redis_exists _ _ _); simpl; [done|].
  by destruct (redis_setex _ _ _ _).
Qed.

(** C1, on the code.  Two threads admit the same identifier on an empty
    store: when both run EXISTS before either runs SETEX, both return
    True. *)
Theorem racing_admissions_both_true :
  exists db,
    rtc (pool_step 3600) (∅, [AtExists "j"; AtExists "j"])
                         (db, [Returned true; Returned true]).
Proof.
  eexists.
  eapply rtc_l.
  { eapply (pool_step_thread 3600) with (i := 0%nat) (now := 10); reflexivity. }
  eapply rtc_l.
  { eapply (pool_step_thread 3600) with (i := 1%nat) (now := 10); reflexivity. }
  eapply rtc_l.
  { eapply (pool_step_thread 3600) with (i := 0%nat) (now := 10); reflexivity. }
  eapply rtc_l.
  { eapply (pool_step_thread 3600) with (i := 1%nat) (now := 10); reflexivity. }
  simpl. apply rtc_refl.
Qed.

(** ** Key resolution *)

Lemma get_jwks_eq env w :
  get_jwks env w =
  if cache_fresh env w then (Ok (_cache (jwks_client w)), w)
  else
    match http_response env with
    | None => (Raise (Py HttpxError), log HttpGet w)
    | Some doc =>
        (Ok doc,
         set_jwks_client (fun c => MkJWKSClient (cache_ttl c) doc (jwks_time env))
                         (log HttpGet w))
    end.
Proof.
  unfold get_jwks, cache_fresh. run.
  destruct (_ && _); [done|]. by destruct (http_response env).
Qed.

(** [get_jwks] changes nothing but the key cache and the trace. *)
Lemma get_jwks_frame env w :
  jti_cache (get_jwks env w).2 = jti_cache w /\
  redis_db (get_jwks env w).2 = redis_db w.
Proof.
  rewrite get_jwks_eq. destruct (cache_fresh env w); [done|].
  by destruct (http_response env).
Qed.

Lemma bearer_header_roundtrip (token : string) :
  bool_decide ("Bearer " ++ token = "") = false /\
  String.prefix "Bearer " ("Bearer " ++ token) = true /\
  drop_chars 7 ("Bearer " ++ token) = token.
Proof.
  split; [|split]; [by apply bool_decide_eq_false_2| |reflexivity].
  destruct token; reflexivity.
Qed.

Section Facts.

Context {PublicKey : Type}.
Variable jws_load : string -> option Jwt.
Variable from_public_bytes : string -> option PublicKey.
Variable ed25519_verify : PublicKey -> Jwt -> bool.
Context {Response : Type}.
Variable call_next : Request -> option ChittyIDTokenClaims -> Result Response.

Local Abbreviation key_loop := (key_loop PublicKey from_public_bytes).
Local Abbreviation get_key := (get_key PublicKey from_public_bytes).
Local Abbreviation jwt_decode := (jwt_decode PublicKey jws_load ed25519_verify).
Local Abbreviation authenticate :=
  (authenticate PublicKey jws_load from_public_bytes ed25519_verify).
Local Abbreviation verify_token :=
  (verify_token PublicKey jws_load from_public_bytes ed25519_verify).
Local Abbreviation run_calls :=
  (run_calls PublicKey jws_load from_public_bytes ed25519_verify).
Local Abbreviation dispatch :=
  (dispatch PublicKey jws_load from_public_bytes ed25519_verify Response call_next).

Lemma key_loop_absent kid (l : list JWK) :
  (forall k, k ∈ l -> jwk_kid k <> Some kid) -> key_loop kid l = Ok None.
Proof.
  induction l as [|k l IH]; intros Hl; [done|]. simpl.
  rewrite (bool_decide_eq_false_2 (jwk_kid k = Some kid)).
  - simpl. apply IH. intros k' Hk'. apply Hl. by right.
  - apply Hl. by left.
Qed.

Lemma get_key_eq env kid w :
  get_key env kid w =
  if cache_fresh env w
  then (key_loop kid (default [] (keys (_cache (jwks_client w)))), w)
  else
    match http_response env with
    | None => (Raise (Py HttpxError), log HttpGet w)
    | Some doc =>
        (key_loop kid (default [] (keys doc)),
         set_jwks_client (fun c => MkJWKSClient (cache_ttl c) doc (jwks_time env))
                         (log HttpGet w))
    end.
Proof.
  unfold get_key. unfold bind at 1. rewrite get_jwks_eq.
  destruct (cache_fresh env w); [done|]. by destruct (http_response env).
Qed.

Lemma get_key_frame env kid w :
  jti_cache (get_key env kid w).2 = jti_cache w /\
  redis_db (get_key env kid w).2 = redis_db w.
Proof.
  rewrite get_key_eq. destruct (cache_fresh env w); [done|].
  by destruct (http_response env).
Qed.


(** ** The shape of verify_token *)

Lemma check_and_set_returns env jti w :
  exists is_new, (check_and_set env jti w).1 = Ok is_new.
Proof.
  assert (Hm : forall w0, exists b, (memory_check_and_set env jti w0).1 = Ok b).
  { intros w0. unfold memory_check_and_set. run. case_decide; eauto. }
  destruct (redis_client (jti_cache w)) eqn:Hc.
  - rewrite check_and_set_shared by done.
    destruct (_redis_check_and_set env jti w) as [[r|e] w']; simpl; eauto.
  - rewrite check_and_set_local by done. apply Hm.
Qed.

(** [verify_token] is [authenticate], then [check_and_set] on the token
    identifier, then [policy]. *)
Lemma verify_token_authenticate self env token w :
  verify_token self env token w =
  match authenticate self env token w with
  | (Raise e, w') => (Raise e, w')
  | (Ok claims, w') =>
      match check_and_set env (jti claims) w' with
      | (Ok true, w'') => (policy self claims, w'')
      | (Ok false, w'') => (Raise (Http replay_detected), w'')
      | (Raise e, w'') => (Raise e, w'')
      end
  end.
Proof.
  unfold verify_token, authenticate, policy.
  unfold bind, ret, raise. cbv beta.
  destruct (jws_load token) as [t|]; [|done].
  destruct (h_kid (header t)) as [kid|]; [|done].
  destruct (bool_decide (kid = "")); [done|].
  destruct (get_key env kid w) as [[[key|]|e] w1]; [|done|done].
  destruct (jwt_decode token key (issuer self) (audience self) (jwt_time env))
    as [e|p].
  { destruct e; done. }
  destruct (mk_claims p) as [claims|]; [|done].
  destruct (check_and_set env (jti claims) w1) as [[[|]|e] w2]; cbn [negb]; [|done|done].
  destruct (bool_decide (lvl claims < min_trust_level self)); [done|].
  by destruct (_ && _).
Qed.

(** Authentication reads the token and the key set; it leaves the replay
    stores alone. *)
Lemma authenticate_frame self env token w :
  jti_cache (authenticate self env token w).2 = jti_cache w /\
  redis_db (authenticate self env token w).2 = redis_db w.
Proof.
  unfold authenticate.
  destruct (jws_load token) as [t|]; [|done].
  destruct (h_kid (header t)) as [kid|]; [|done].
  destruct (bool_decide (kid = "")); [done|].
  unfold bind. pose proof (get_key_frame env kid w) as Hf.
  destruct (get_key env kid w) as [[[key|]|e] w1]; simpl in *; [|done|done].
  destruct (jwt_decode _ _ _ _ _) as [e|p].
  { destruct e; done. }
  by destruct (mk_claims p).
Qed.

(** The claims that [authenticate] returns are those the token carries. *)
Lemma authenticate_claims self env token w claims w' :
  authenticate self env token w = (Ok claims, w') ->
  exists t p, jws_load token = Some t /\ payload t = Some p /\ mk_claims p = Some claims.
Proof.
  unfold authenticate, jwt_decode.
  destruct (jws_load token) as [t|] eqn:Ht; [|done].
  destruct (h_kid (header t)) as [kid|]; [|done].
  destruct (bool_decide (kid = "")); [done|].
  unfold bind.
  destruct (get_key env kid w) as [[[key|]|e] w1]; [|done|done].
  destruct (negb (bool_decide (h_alg (header t) = Some "EdDSA"))); [done|].
  destruct (negb (ed25519_verify key t)); [done|].
  destruct (payload t) as [p|] eqn:Hp; [|done].
  destruct (validate_claims p (issuer self) (audience self) (jwt_time env)) as [e|].
  { destruct e; done. }
  destruct (mk_claims p) as [c|] eqn:Hc; [|done].
  intros [= <- <-]. by exists t, p.
Qed.

Lemma authenticate_same_claims self env1 env2 token w1 w2 c1 c2 w1' w2' :
  authenticate self env1 token w1 = (Ok c1, w1') ->
  authenticate self env2 token w2 = (Ok c2, w2') ->
  c1 = c2.
Proof.
  intros H1 H2.
  apply authenticate_claims in H1 as (t1 & p1 & Ht1 & Hp1 & Hc1).
  apply authenticate_claims in H2 as (t2 & p2 & Ht2 & Hp2 & Hc2).
  congruence.
Qed.

(** ** Retention of an admitted identifier *)

Lemma redis_key_inj (a b : string) :
  "chittyid:jti:" ++ a = "chittyid:jti:" ++ b -> a = b.
Proof. intros H. injection H. done. Qed.

Lemma check_and_set_config env jti w :
  redis_client (jti_cache (check_and_set env jti w).2) = redis_client (jti_cache w) /\
  ttl (jti_cache (check_and_set env jti w).2) = ttl (jti_cache w).
Proof.
  destruct (redis_client (jti_cache w)) eqn:Hc.
  - rewrite check_and_set_shared by done.
    pose proof (redis_check_and_set_frame env jti w) as [Hf _].
    destruct (_redis_check_and_set env jti w) as [[r|e] w']; simpl in *.
    + by rewrite Hf.
    + destruct (memory_check_and_set_frame env jti w') as (_ & _ & _ & -> & ->).
      by rewrite Hf.
  - rewrite check_and_set_local by done.
    destruct (memory_check_and_set_frame env jti w) as (_ & _ & _ & -> & ->). done.
Qed.

Lemma marked_ext w w' jti e :
  redis_client (jti_cache w') = redis_client (jti_cache w) ->
  (redis_client (jti_cache w) = true -> redis_db w' = redis_db w) ->
  (redis_client (jti_cache w) = false ->
   _memory_cache (jti_cache w') = _memory_cache (jti_cache w)) ->
  marked w jti e -> marked w' jti e.
Proof.
  unfold marked. intros -> Hdb Hm.
  destruct (redis_client (jti_cache w)); [rewrite Hdb|rewrite Hm]; done.
Qed.

(** A recorded identifier stays recorded by any admission made while it is
    retained. *)
Lemma check_and_set_keeps_mark env j w jti e :
  marked w jti e ->
  (if redis_client (jti_cache w) then redis_time env < e else jti_time env <= e) ->
  marked (check_and_set env j w).2 jti e.
Proof.
  intros Hm Hwin. destruct (redis_client (jti_cache w)) eqn:Hc.
  - assert (Hmem : forall w0, redis_client (jti_cache w0) = true ->
               marked w0 jti e -> marked (memory_check_and_set env j w0).2 jti e).
    { intros w0 Hc0 Hm0.
      destruct (memory_check_and_set_frame env j w0) as (Hdb & _ & _ & Hcl & _).
      apply (marked_ext w0); [done|done|congruence|done]. }
    rewrite check_and_set_shared by done. rewrite redis_check_and_set_eq. cbv zeta.
    unfold marked in Hm. rewrite Hc in Hm.
    destruct (exists_raises env).
    { apply Hmem; [done|]. unfold marked. simpl. by rewrite Hc. }
    destruct (redis_exists _ _ _) eqn:Hex.
    { unfold marked. simpl. by rewrite Hc. }
    destruct (setex_raises env).
    { apply Hmem; [done|]. unfold marked. simpl. by rewrite Hc. }
    unfold redis_setex. case_bool_decide.
    + unfold marked. simpl. rewrite Hc.
      rewrite lookup_insert_ne; [done|].
      intros Heq%redis_key_inj. subst j.
      unfold redis_exists in Hex. rewrite Hm in Hex.
      rewrite bool_decide_eq_true_2 in Hex by lia. done.
    + apply Hmem; [done|]. unfold marked. simpl. by rewrite Hc.
  - rewrite check_and_set_local by done.
    unfold marked in *. rewrite Hc in Hm.
    destruct (_memory_cache (jti_cache w) !! j) as [vj|] eqn:Hj.
    + rewrite memory_check_and_set_present by eauto. simpl. by rewrite Hc.
    + rewrite memory_check_and_set_absent by done. simpl. rewrite Hc.
      rewrite lookup_admitted_map, lookup_insert_ne, Hm by congruence.
      rewrite decide_False; [done|lia].
Qed.

(** An admission records the identifier until the end of the retention
    time, in the store that the configuration selects, provided that store
    answered. *)
Lemma admission_marks env jti w w' :
  check_and_set env jti w = (Ok true, w') ->
  (redis_client (jti_cache w) = true ->
   exists_raises env = false /\ setex_raises env = false) ->
  (if redis_client (jti_cache w)
   then redis_time env < retention_end w env
   else jti_time env <= retention_end w env) ->
  marked w' jti (retention_end w env).
Proof.
  unfold retention_end. intros Hcas Hup Hwin.
  destruct (redis_client (jti_cache w)) eqn:Hc.
  - destruct Hup as [He Hs]; [done|].
    rewrite check_and_set_shared in Hcas by done.
    rewrite redis_check_and_set_eq in Hcas. cbv zeta in Hcas.
    rewrite He, Hs in Hcas.
    destruct (redis_exists _ _ _); [done|].
    unfold redis_setex in Hcas. rewrite bool_decide_eq_true_2 in Hcas by lia.
    injection Hcas as <-. unfold marked. simpl. rewrite Hc.
    by rewrite lookup_insert_eq.
  - rewrite check_and_set_local in Hcas by done.
    destruct (_memory_cache (jti_cache w) !! jti) as [vj|] eqn:Hj.
    + rewrite memory_check_and_set_present in Hcas by eauto. done.
    + rewrite memory_check_and_set_absent in Hcas by done.
      injection Hcas as <-. unfold marked. simpl. rewrite Hc.
      rewrite lookup_admitted_map, lookup_insert_eq.
      rewrite decide_False; [done|lia].
Qed.

(** A recorded identifier is refused by the store that recorded it. *)
Lemma marked_refused env jti w e :
  marked w jti e ->
  (redis_client (jti_cache w) = true ->
   exists_raises env = false /\ redis_time env < e) ->
  (check_and_set env jti w).1 = Ok false.
Proof.
  unfold marked. intros Hm Hup. destruct (redis_client (jti_cache w)) eqn:Hc.
  - destruct Hup as [He Hlt]; [done|].
    rewrite check_and_set_shared by done. rewrite redis_check_and_set_eq. cbv zeta.
    rewrite He. unfold redis_exists. rewrite Hm.
    by rewrite bool_decide_eq_true_2 by lia.
  - rewrite check_and_set_local by done.
    rewrite memory_check_and_set_present by eauto. done.
Qed.

Lemma verify_token_config self env token w :
  redis_client (jti_cache (verify_token self env token w).2)
    = redis_client (jti_cache w) /\
  ttl (jti_cache (verify_token self env token w).2) = ttl (jti_cache w).
Proof.
  rewrite verify_token_authenticate.
  pose proof (authenticate_frame self env token w) as [Hf _].
  destruct (authenticate self env token w) as [[claims|e] wa]; simpl in *.
  - pose proof (check_and_set_config env (jti claims) wa) as Hcfg.
    destruct (check_and_set env (jti claims) wa) as [[[|]|e] w1];
      simpl in *; by rewrite <- Hf.
  - by rewrite Hf.
Qed.

Lemma verify_token_keeps_mark self env token w tid e :
  marked w tid e ->
  (if redis_client (jti_cache w) then redis_time env < e else jti_time env <= e) ->
  marked (verify_token self env token w).2 tid e.
Proof.
  intros Hm Hwin. rewrite verify_token_authenticate.
  pose proof (authenticate_frame self env token w) as [Hf Hdb].
  destruct (authenticate self env token w) as [[claims|e0] wa]; simpl in *.
  - assert (Hma : marked wa tid e).
    { apply (marked_ext w); [by rewrite Hf|done|by rewrite Hf|done]. }
    pose proof (check_and_set_keeps_mark env (jti claims) wa tid e Hma) as Hk.
    rewrite Hf in Hk. specialize (Hk Hwin).
    by destruct (check_and_set env (jti claims) wa) as [[[|]|e1] w1].
  - apply (marked_ext w); [by rewrite Hf|done|by rewrite Hf|done].
Qed.

Lemma run_calls_keeps_mark self calls w jti e :
  marked w jti e ->
  Forall (fun env => if redis_client (jti_cache w)
                     then redis_time env < e else jti_time env <= e) calls.*1 ->
  marked (run_calls self calls w) jti e /\
  redis_client (jti_cache (run_calls self calls w)) = redis_client (jti_cache w).
Proof.
  revert w. induction calls as [|[env token] calls IH]; intros w Hm Hall; [done|].
  simpl in *. apply Forall_cons in Hall as [Hwin Hall].
  destruct (verify_token_config self env token w) as [Hc _].
  destruct (IH (verify_token self env token w).2) as [IH1 IH2].
  - by apply verify_token_keeps_mark.
  - by rewrite Hc.
  - split; [done|]. by rewrite IH2.
Qed.

(** ** Consume-once *)

(** What [authenticate] can raise. *)
Lemma get_key_raises env kid w e w' :
  get_key env kid w = (Raise e, w') -> e = Py HttpxError \/ e = Py KeyBytesError.
Proof.
  assert (Hl : forall l e0, key_loop kid l = Raise e0 -> e0 = Py KeyBytesError).
  { induction l as [|k l IH]; intros e0; simpl; [done|].
    destruct (_ && _); [|apply IH].
    destruct (jwk_x k) as [x|]; [|apply IH].
    destruct (bool_decide (x = "")); [apply IH|].
    destruct (from_public_bytes x); [done|]. by intros [= <-]. }
  rewrite get_key_eq. destruct (cache_fresh env w).
  - intros [= H _]. right. by apply (Hl _ _ H).
  - destruct (http_response env) as [doc|].
    + intros [= H _]. right. by apply (Hl _ _ H).
    + intros [= <- _]. by left.
Qed.

Lemma authenticate_raises self env token w e w' :
  authenticate self env token w = (Raise e, w') ->
  (e = Http token_expired /\
   exists key, jwt_decode token key (issuer self) (audience self) (jwt_time env)
               = inl ExpiredSignatureError) \/
  (exists pe, e = Py pe /\ pe <> ValueError_Validation ExpiredSignatureError).
Proof.
  unfold authenticate.
  destruct (jws_load token) as [t|] eqn:Ht.
  2:{ intros [= <- _]. right. eauto. }
  destruct (h_kid (header t)) as [kid|].
  2:{ intros [= <- _]. right. eauto. }
  destruct (bool_decide (kid = "")).
  { intros [= <- _]. right. eauto. }
  unfold bind.
  destruct (get_key env kid w) as [[[key|]|e0] w1] eqn:Hk.
  - destruct (jwt_decode token key (issuer self) (audience self) (jwt_time env))
      as [e1|p] eqn:Hd.
    + destruct e1; intros [= <- _];
        solve [ right; eexists; split; [done|]; congruence
              | left; split; [done|]; by exists key ].
    + destruct (mk_claims p); [done|]. intros [= <- _]. right. eauto.
  - intros [= <- _]. right. eauto.
  - intros [= <- _]. right.
    destruct (get_key_raises _ _ _ _ _ Hk) as [->| ->]; eauto.
Qed.

(** A call that got past replay admission: it returned claims or raised one
    of the two 403 responses. *)
Lemma verify_token_admitted self env token w r w1 :
  verify_token self env token w = (r, w1) ->
  (exists c, r = Ok c) \/ (exists h, r = Raise (Http h) /\ status_code h = 403) ->
  exists claims wa,
    authenticate self env token w = (Ok claims, wa) /\
    check_and_set env (jti claims) wa = (Ok true, w1) /\
    policy self claims = r.
Proof.
  rewrite verify_token_authenticate. intros Hv Hr.
  destruct (authenticate self env token w) as [[claims|e] wa] eqn:Ha.
  - destruct (check_and_set env (jti claims) wa) as [[[|]|e] w2] eqn:Hc.
    + injection Hv as <- <-. by exists claims, wa.
    + injection Hv as <- <-.
      destruct Hr as [[c [=]]|(h & [= <-] & [=])].
    + destruct (check_and_set_returns env (jti claims) wa) as [b Hb].
      rewrite Hc in Hb. done.
  - injection Hv as <- <-.
    destruct Hr as [[c [=]]|(h & [= ->] & Hs)].
    apply authenticate_raises in Ha as [[[= ->] _]|(pe & [=] & _)]. done.
Qed.

Lemma admitted_then_refused self env1 env2 token w0 claims wa w1 calls :
  authenticate self env1 token w0 = (Ok claims, wa) ->
  check_and_set env1 (jti claims) wa = (Ok true, w1) ->
  same_store w0 env1 env2 ->
  Forall (within_retention w0 env1) (env1 :: calls.*1 ++ [env2]) ->
  marked w1 (jti claims) (retention_end w0 env1) /\
  (forall c, (verify_token self env2 token (run_calls self calls w1)).1 <> Ok c) /\
  (forall c wa',
      authenticate self env2 token (run_calls self calls w1) = (Ok c, wa') ->
      (verify_token self env2 token (run_calls self calls w1)).1
      = Raise (Http replay_detected)).
Proof.
  intros Ha Hc Hsame Hall.
  apply Forall_cons in Hall as [Hwin1 Hall].
  apply Forall_app in Hall as [Hcalls Hwin2].
  rewrite Forall_singleton in Hwin2.
  pose proof (authenticate_frame self env1 token w0) as [Hf _].
  rewrite Ha in Hf. simpl in Hf.
  assert (Hend : retention_end wa env1 = retention_end w0 env1).
  { unfold retention_end. by rewrite Hf. }
  unfold within_retention, same_store in *.
  assert (Hm1 : marked w1 (jti claims) (retention_end w0 env1)).
  { rewrite <- Hend. apply (admission_marks env1 (jti claims) wa w1 Hc).
    - rewrite Hf. intros Hcl. by destruct (Hsame Hcl) as (? & ? & _).
    - by rewrite Hf, Hend. }
  pose proof (check_and_set_config env1 (jti claims) wa) as [Hcl1 _].
  rewrite Hc in Hcl1. simpl in Hcl1. rewrite Hf in Hcl1.
  destruct (run_calls_keeps_mark self calls w1 (jti claims)
              (retention_end w0 env1) Hm1) as [Hm2 Hcl2].
  { by rewrite Hcl1. }
  rewrite Hcl1 in Hcl2.
  set (w2 := run_calls self calls w1) in *.
  assert (Hgoal : forall c wa',
             authenticate self env2 token w2 = (Ok c, wa') ->
             (verify_token self env2 token w2).1 = Raise (Http replay_detected)).
  { intros c wa' Ha2. rewrite verify_token_authenticate, Ha2.
    assert (c = claims) as -> by (eapply authenticate_same_claims; eauto).
    pose proof (authenticate_frame self env2 token w2) as [Hf2 Hdb2].
    rewrite Ha2 in Hf2, Hdb2. simpl in Hf2, Hdb2.
    assert (Hma : marked wa' (jti claims) (retention_end w0 env1)).
    { apply (marked_ext w2); [by rewrite Hf2|done|by rewrite Hf2|done]. }
    assert (Href : (check_and_set env2 (jti claims) wa').1 = Ok false).
    { apply (marked_refused env2 (jti claims) wa' _ Hma).
      rewrite Hf2, Hcl2. intros Hcl.
      rewrite Hcl in Hwin2. split; [by destruct (Hsame Hcl) as (_ & _ & ?)|done]. }
    destruct (check_and_set env2 (jti claims) wa') as [[[|]|e] w3];
      simpl in *; done. }
  split; [done|]. split; [|done].
  intros c Hok.
  destruct (authenticate self env2 token w2) as [[c2|e] wa2] eqn:Ha2.
  - rewrite (Hgoal c2 wa2 eq_refl) in Hok. done.
  - rewrite verify_token_authenticate, Ha2 in Hok. done.
Qed.



(** ** Policy order *)


(** ** Rejection categories *)

Lemma verify_token_raises self env token w e w' :
  verify_token self env token w = (Raise e, w') ->
  (e = Http token_expired /\
   exists key, jwt_decode token key (issuer self) (audience self) (jwt_time env)
               = inl ExpiredSignatureError) \/
  e = Http replay_detected \/
  (exists claims, e = Http (insufficient_trust_level self claims)) \/
  e = Http (insufficient_scope self) \/
  (exists pe, e = Py pe /\ pe <> ValueError_Validation ExpiredSignatureError).
Proof.
  rewrite verify_token_authenticate.
  destruct (authenticate self env token w) as [[claims|e0] wa] eqn:Ha.
  - destruct (check_and_set_returns env (jti claims) wa) as [b Hb].
    destruct (check_and_set env (jti claims) wa) as [[[|]|e1] w1]; simpl in *.
    + unfold policy. repeat case_match; intros [= <- _]; eauto 10.
    + intros [= <- _]. eauto.
    + done.
  - intros [= <- _]. apply authenticate_raises in Ha as [?|?]; eauto 10.
Qed.

(** What [dispatch] makes of an exception of [verify_token]: an HTTPException
    is raised again as it is, anything else becomes a 401 [invalid_token]. *)
Lemma dispatch_of_raise self env request w auth_header e w' :
  path request ∉ skip_paths self ->
  authorization request = Some auth_header ->
  String.prefix "Bearer " auth_header = true ->
  verify_token self env (drop_chars 7 auth_header) w = (Raise e, w') ->
  dispatch self env request w
  = (Raise (Http match e with Http h => h | Py pe => invalid_token pe end), w').
Proof.
  intros Hpath Hauth Hpre Hv. unfold dispatch.
  rewrite bool_decide_eq_false_2 by done. rewrite Hauth, Hpre.
  rewrite (bool_decide_eq_false_2 (auth_header = "")).
  2:{ intros ->. done. }
  cbn [orb negb]. unfold try_except, bind. rewrite Hv. by destruct e.
Qed.

(** What [verify_token] raises once the key is there and [jwt.decode]
    fails. *)
Lemma verify_token_decode_error self env token w t kid key w1 e0 :
  jws_load token = Some t -> h_kid (header t) = Some kid -> kid <> "" ->
  get_key env kid w = (Ok (Some key), w1) ->
  jwt_decode token key (issuer self) (audience self) (jwt_time env) = inl e0 ->
  verify_token self env token w
  = (Raise match e0 with
           | ExpiredSignatureError => Http token_expired
           | _ => Py (ValueError_Validation e0)
           end, w1).
Proof.
  intros Ht Hkid Hne Hk Hd. rewrite verify_token_authenticate.
  unfold authenticate. rewrite Ht, Hkid.
  rewrite bool_decide_eq_false_2 by done.
  unfold bind. rewrite Hk, Hd. by destruct e0.
Qed.

(** C8.  On a path that is not exempt: a request without [authorization]
    header, or with one that does not start with the seven characters of
    "Bearer ", is rejected as [unauthorized].  Otherwise the response of
    [dispatch] is determined by the exception of [verify_token]: the 401
    raised for PyJWT's ExpiredSignatureError is passed on with its category
    [token_expired], the replay 401 and the two 403 responses of the policy
    checks are passed on as they are, and every other exception becomes a
    401 [invalid_token] carrying that exception.  In particular, with the key
    resolved, ExpiredSignatureError from [jwt.decode] is answered
    [token_expired] and every other error of [jwt.decode] [invalid_token];
    an exception of key resolution, a failed key-set fetch included, is
    answered [invalid_token]. *)
Theorem dispatch_rejection_categories self env request w :
  path request ∉ skip_paths self ->
  match authorization request with
  | Some auth_header =>
      if String.prefix "Bearer " auth_header
      then
        (forall e w',
          verify_token self env (drop_chars 7 auth_header) w = (Raise e, w') ->
          exists h,
            dispatch self env request w = (Raise (Http h), w') /\
            ((e = Http token_expired /\ h = token_expired /\
              error h = "token_expired" /\
              exists key, jwt_decode (drop_chars 7 auth_header) key (issuer self)
                                     (audience self) (jwt_time env)
                          = inl ExpiredSignatureError) \/
             (e = Http h /\ status_code h = 403 /\
              ((exists claims, h = insufficient_trust_level self claims) \/
               h = insufficient_scope self)) \/
             (status_code h = 401 /\ error h = "invalid_token" /\
              ((e = Http replay_detected /\ h = replay_detected) \/
               exists pe, e = Py pe /\ h = invalid_token pe /\
                          pe <> ValueError_Validation ExpiredSignatureError)))) /\
        (forall t kid key w1 e0,
          jws_load (drop_chars 7 auth_header) = Some t ->
          h_kid (header t) = Some kid -> kid <> "" ->
          get_key env kid w = (Ok (Some key), w1) ->
          jwt_decode (drop_chars 7 auth_header) key (issuer self) (audience self)
                     (jwt_time env) = inl e0 ->
          dispatch self env request w
          = (Raise (Http match e0 with
                         | ExpiredSignatureError => token_expired
                         | _ => invalid_token (ValueError_Validation e0)
                         end), w1)) /\
        (forall t kid e1 w1,
          jws_load (drop_chars 7 auth_header) = Some t ->
          h_kid (header t) = Some kid -> kid <> "" ->
          get_key env kid w = (Raise e1, w1) ->
          exists pe,
            e1 = Py pe /\ (pe = HttpxError \/ pe = KeyBytesError) /\
            dispatch self env request w = (Raise (Http (invalid_token pe)), w1))
      else
        dispatch self env request w = (Raise (Http unauthorized), w) /\
        error unauthorized = "unauthorized"
  | None =>
      dispatch self env request w = (Raise (Http unauthorized), w) /\
      error unauthorized = "unauthorized"
  end.
Proof.
  intros Hpath.
  destruct (authorization request) as [auth_header|] eqn:Hauth.
  2:{ unfold dispatch. rewrite bool_decide_eq_false_2 by done. by rewrite Hauth. }
  destruct (String.prefix "Bearer " auth_header) eqn:Hpre.
  2:{ unfold dispatch. rewrite bool_decide_eq_false_2 by done.
      rewrite Hauth, Hpre. by rewrite orb_true_r. }
  split; [|split].
  - intros e w' Hv.
    rewrite (dispatch_of_raise self env request w auth_header e w' Hpath Hauth Hpre Hv).
    apply verify_token_raises in Hv
      as [[-> Hk]|[->|[[claims ->]|[->|(pe & -> & Hpe)]]]].
    + exists token_expired. split; [done|]. left. done.
    + exists replay_detected. split; [done|].
      right; right. split; [done|]. split; [done|]. by left.
    + exists (insufficient_trust_level self claims). split; [done|].
      right; left. split; [done|]. split; [done|]. left. by exists claims.
    + exists (insufficient_scope self). split; [done|].
      right; left. split; [done|]. split; [done|]. by right.
    + exists (invalid_token pe). split; [done|].
      right; right. split; [done|]. split; [done|]. right. by exists pe.
  - intros t kid key w1 e0 Ht Hkid Hne Hk Hd.
    rewrite (dispatch_of_raise self env request w auth_header _ w1 Hpath Hauth Hpre
               (verify_token_decode_error self env _ w t kid key w1 e0 Ht Hkid Hne Hk Hd)).
    by destruct e0.
  - intros t kid e1 w1 Ht Hkid Hne Hk.
    assert (Hv : verify_token self env (drop_chars 7 auth_header) w = (Raise e1, w1)).
    { rewrite verify_token_authenticate. unfold authenticate. rewrite Ht, Hkid.
      rewrite bool_decide_eq_false_2 by done. unfold bind. by rewrite Hk. }
    rewrite (dispatch_of_raise self env request w auth_header e1 w1 Hpath Hauth Hpre Hv).
    destruct (get_key_raises env kid w e1 w1 Hk) as [-> | ->].
    + exists HttpxError. split; [done|]. split; [by left|done].
    + exists KeyBytesError. split; [done|]. split; [by right|done].
Qed.

(** ** Expiry and the declared algorithm *)

(** PyJWT reports expiry only after the iat and nbf checks passed, and only
    for an [exp] that is not above the clock. *)
Lemma validate_claims_expired p iss0 aud0 now :
  validate_claims p iss0 aud0 now = Some ExpiredSignatureError <->
  (forall iat, p_iat p = Some iat -> iat <= now) /\
  (forall nbf, p_nbf p = Some nbf -> nbf <= now) /\
  exists e, p_exp p = Some e /\ e <= now.
Proof.
  unfold validate_claims. split.
  - destruct (p_iat p) as [iat0|]; [case_bool_decide as Hb1; [done|]|];
      (destruct (p_nbf p) as [nbf0|]; [case_bool_decide as Hb2; [done|]|]);
      (destruct (p_exp p) as [e|]; [case_bool_decide as Hb3|]);
      first [ intros _; split; [|split];
              [ intros; simplify_eq; lia
              | intros; simplify_eq; lia
              | eexists; split; [done|lia] ]
            | intros Hx; exfalso; revert Hx; repeat case_match; done ].
  - intros (Hiat & Hnbf & e & -> & He).
    destruct (p_iat p) as [iat0|].
    + rewrite bool_decide_eq_false_2 by (specialize (Hiat _ eq_refl); lia).
      destruct (p_nbf p) as [nbf0|].
      * rewrite bool_decide_eq_false_2 by (specialize (Hnbf _ eq_refl); lia).
        by rewrite bool_decide_eq_true_2.
      * by rewrite bool_decide_eq_true_2.
    + destruct (p_nbf p) as [nbf0|].
      * rewrite bool_decide_eq_false_2 by (specialize (Hnbf _ eq_refl); lia).
        by rewrite bool_decide_eq_true_2.
      * by rewrite bool_decide_eq_true_2.
Qed.

(** C6, as the code has it.  Take a token that names a key which resolves
    and that declares EdDSA.  When its signature does not verify under that
    key, [verify_token] raises "Token validation failed" for the signature,
    whatever its claims and its [exp], and the gateway answers
    [invalid_token].  When the signature verifies and the claims object has
    [iat] and [nbf] not in the future, [verify_token] raises the
    [token_expired] response, which the gateway passes on, exactly when
    [exp] is at or before the clock that [jwt.decode] reads: the comparison
    is [exp <= now], with no leeway.  Either response is raised before replay
    admission, on the world that key resolution left. *)
Theorem expired_token_rejected self env token w t kid key w' p0 :
  jws_load token = Some t ->
  h_kid (header t) = Some kid -> kid <> "" ->
  get_key env kid w = (Ok (Some key), w') ->
  h_alg (header t) = Some "EdDSA" ->
  p0 ∉ skip_paths self ->
  (ed25519_verify key t = false ->
   verify_token self env token w
   = (Raise (Py (ValueError_Validation InvalidSignatureError)), w') /\
   dispatch self env (MkRequest p0 (Some ("Bearer " ++ token))) w
   = (Raise (Http (invalid_token (ValueError_Validation InvalidSignatureError))), w') /\
   error (invalid_token (ValueError_Validation InvalidSignatureError))
   = "invalid_token") /\
  (ed25519_verify key t = true ->
   forall p e,
     payload t = Some p ->
     (forall iat, p_iat p = Some iat -> iat <= jwt_time env) ->
     (forall nbf, p_nbf p = Some nbf -> nbf <= jwt_time env) ->
     p_exp p = Some e ->
     (e <= jwt_time env ->
      verify_token self env token w = (Raise (Http token_expired), w') /\
      dispatch self env (MkRequest p0 (Some ("Bearer " ++ token))) w
      = (Raise (Http token_expired), w') /\
      error token_expired = "token_expired") /\
     (jwt_time env < e ->
      (verify_token self env token w).1 <> Raise (Http token_expired))).
Proof.
  intros Ht Hkid Hne Hkey Halg Hpath.
  assert (Hdisp : forall e0,
             verify_token self env token w = (Raise e0, w') ->
             dispatch self env (MkRequest p0 (Some ("Bearer " ++ token))) w
             = (Raise (Http match e0 with Http h => h | Py pe => invalid_token pe end),
                w')).
  { intros e0 Hv.
    destruct (bearer_header_roundtrip token) as (_ & Hpre & Hdrop).
    apply (dispatch_of_raise self env (MkRequest p0 (Some ("Bearer " ++ token))) w
             ("Bearer " ++ token) e0 w' Hpath eq_refl Hpre).
    by rewrite Hdrop. }
  split.
  - intros Hsig.
    assert (Hd : jwt_decode token key (issuer self) (audience self) (jwt_time env)
                 = inl InvalidSignatureError).
    { unfold jwt_decode. rewrite Ht, Halg, Hsig.
      by rewrite bool_decide_eq_true_2. }
    pose proof (verify_token_decode_error self env token w t kid key w' _
                  Ht Hkid Hne Hkey Hd) as Hv.
    split; [done|]. split; [|done]. by rewrite (Hdisp _ Hv).
  - intros Hsig p e Hp Hiat Hnbf Hexp.
    assert (Hdec : forall key0,
               jwt_decode token key0 (issuer self) (audience self) (jwt_time env)
               = inl ExpiredSignatureError -> e <= jwt_time env).
    { intros key0. unfold jwt_decode. rewrite Ht, Halg, Hp.
      rewrite bool_decide_eq_true_2 by done. cbn [negb].
      destruct (negb (ed25519_verify key0 t)); [done|].
      destruct (validate_claims p (issuer self) (audience self) (jwt_time env))
        as [e0|] eqn:Hval; [|done].
      intros [= ->]. apply validate_claims_expired in Hval as (_ & _ & e1 & He1 & Hle).
      congruence. }
    split.
    + intros Hle.
      assert (Hd : jwt_decode token key (issuer self) (audience self) (jwt_time env)
                   = inl ExpiredSignatureError).
      { unfold jwt_decode. rewrite Ht, Halg, Hp, Hsig.
        rewrite bool_decide_eq_true_2 by done. cbn [negb].
        assert (Hval : validate_claims p (issuer self) (audience self) (jwt_time env)
                       = Some ExpiredSignatureError).
        { apply validate_claims_expired. eauto. }
        by rewrite Hval. }
      pose proof (verify_token_decode_error self env token w t kid key w' _
                    Ht Hkid Hne Hkey Hd) as Hv.
      split; [done|]. split; [|done]. by rewrite (Hdisp _ Hv).
    + intros Hlt Hexpd.
      destruct (verify_token self env token w) as [r w1] eqn:Hv. simpl in Hexpd. subst r.
      apply verify_token_raises in Hv
        as [[_ [key0 Hk0]]|[[=]|[[claims [=]]|[[=]|(pe & [=] & _)]]]].
      apply Hdec in Hk0. lia.
Qed.

Lemma jwt_decode_other_algorithm token key iss0 aud0 now t :
  jws_load token = Some t -> h_alg (header t) <> Some "EdDSA" ->
  jwt_decode token key iss0 aud0 now = inl InvalidAlgorithmError.
Proof.
  intros Ht Halg. unfold jwt_decode. rewrite Ht.
  by rewrite bool_decide_eq_false_2.
Qed.

(** C2, as the code has it.  A token whose header declares another
    algorithm than EdDSA is never accepted and never reaches the replay
    store, and its algorithm field selects nothing: [jwt.decode] is called
    with the one allowed algorithm and refuses the token whatever the key
    and the signature.  That refusal comes after key resolution:
    [verify_token] first asks [get_key] for the declared key identifier,
    and answers with its exception or with "Unknown key id" when it yields
    no key. *)
Theorem other_algorithm_rejected_after_key_lookup self env token w t :
  jws_load token = Some t -> h_alg (header t) <> Some "EdDSA" ->
  (forall claims, (verify_token self env token w).1 <> Ok claims) /\
  jti_cache (verify_token self env token w).2 = jti_cache w /\
  redis_db (verify_token self env token w).2 = redis_db w /\
  verify_token self env token w =
    match h_kid (header t) with
    | Some kid =>
        if bool_decide (kid = "") then (Raise (Py ValueError_MissingKid), w)
        else
          match get_key env kid w with
          | (Ok (Some _), w') =>
              (Raise (Py (ValueError_Validation InvalidAlgorithmError)), w')
          | (Ok None, w') => (Raise (Py (ValueError_UnknownKid kid)), w')
          | (Raise e, w') => (Raise e, w')
          end
    | None => (Raise (Py ValueError_MissingKid), w)
    end.
Proof.
  intros Ht Halg.
  assert (Heq : verify_token self env token w =
    match h_kid (header t) with
    | Some kid =>
        if bool_decide (kid = "") then (Raise (Py ValueError_MissingKid), w)
        else
          match get_key env kid w with
          | (Ok (Some _), w') =>
              (Raise (Py (ValueError_Validation InvalidAlgorithmError)), w')
          | (Ok None, w') => (Raise (Py (ValueError_UnknownKid kid)), w')
          | (Raise e, w') => (Raise e, w')
          end
    | None => (Raise (Py ValueError_MissingKid), w)
    end).
  { rewrite verify_token_authenticate. unfold authenticate. rewrite Ht.
    destruct (h_kid (header t)) as [kid|]; [|done].
    destruct (bool_decide (kid = "")); [done|].
    unfold bind.
    destruct (get_key env kid w) as [[[key|]|e] w1]; [|done|done].
    by rewrite (jwt_decode_other_algorithm _ _ _ _ _ _ Ht Halg). }
  rewrite Heq. split; [|split; [|split; [|done]]].
  - intros claims.
    destruct (h_kid (header t)) as [kid|]; [|done].
    destruct (bool_decide (kid = "")); [done|].
    by destruct (get_key env kid w) as [[[key|]|e] w1].
  - destruct (h_kid (header t)) as [kid|]; [|done].
    destruct (bool_decide (kid = "")); [done|].
    pose proof (get_key_frame env kid w) as [Hf _].
    by destruct (get_key env kid w) as [[[key|]|e] w1].
  - destruct (h_kid (header t)) as [kid|]; [|done].
    destruct (bool_decide (kid = "")); [done|].
    pose proof (get_key_frame env kid w) as [_ Hf].
    by destruct (get_key env kid w) as [[[key|]|e] w1].
Qed.

End Facts.

(** ** The claims on concrete runs *)

(** C2 as stated fails: the token "rs256" declares RS256, and with an empty
    key cache [verify_token] fetches the key set before it turns the token
    down. *)
Lemma rs256_token_triggers_key_fetch :
  ~ rejected_before_key_lookup string demo_load demo_from_public_bytes demo_verify
      demo_self (demo_env 10 false) "rs256" (demo_world false).
Proof.
  intros H. unfold rejected_before_key_lookup in H.
  specialize (H (MkJwt (MkHeader (Some "RS256") (Some "k1"))
                       (Some (demo_payload "j3" 1000 2 None)) "key1") eq_refl).
  assert (Hne : Some "RS256" <> Some "EdDSA") by discriminate.
  specialize (H Hne). vm_compute in H. discriminate.
Qed.

Lemma rs256_token_rejected :
  (demo_verify_token demo_self (demo_env 10 false) "rs256" (demo_world false)).1
  = Raise (Py (ValueError_Validation InvalidAlgorithmError)).
Proof.
  assert (Hne : h_alg (MkHeader (Some "RS256") (Some "k1")) <> Some "EdDSA")
    by discriminate.
  destruct (other_algorithm_rejected_after_key_lookup demo_load demo_from_public_bytes
              demo_verify demo_self (demo_env 10 false) "rs256" (demo_world false)
              (MkJwt (MkHeader (Some "RS256") (Some "k1"))
                     (Some (demo_payload "j3" 1000 2 None)) "key1")
              eq_refl Hne) as (_ & _ & _ & Heq).
  rewrite Heq. vm_compute. reflexivity.
Defined.


(** C6 as stated fails: the token "forged" expired at 50 and carries a
    signature that does not verify; at time 60 it is rejected for its
    signature, not as expired. *)
Lemma forged_expired_token_not_reported_expired :
  ~ expired_whatever_signature string demo_load demo_from_public_bytes demo_verify
      demo_self (demo_env 60 false) "forged" (demo_world false).
Proof.
  intros H. unfold expired_whatever_signature in H.
  assert (Hle : 50 <= jwt_time (demo_env 60 false)) by (simpl; lia).
  specialize (H (MkJwt (MkHeader (Some "EdDSA") (Some "k1"))
                       (Some (demo_payload "j4" 50 2 None)) "other")
                (demo_payload "j4" 50 2 None) 50 eq_refl eq_refl eq_refl Hle).
  vm_compute in H. discriminate.
Qed.

Lemma expired_token_example :
  demo_dispatch demo_self (demo_env 2000 false)
    (MkRequest "/api" (Some ("Bearer " ++ "good"))) (demo_world false)
  = (Raise (Http token_expired),
     (demo_get_key (demo_env 2000 false) "k1" (demo_world false)).2).
Proof.
  assert (Hle : 1000 <= jwt_time (demo_env 2000 false)) by (simpl; lia).
  assert (Hkid : "k1" <> "") by discriminate.
  assert (Hpath : "/api" ∉ skip_paths demo_self).
  { simpl. by intros ?%list_elem_of_singleton. }
  assert (Hiat : forall iat, p_iat (demo_payload "j1" 1000 2 (Some "mcp:invoke tools:read"))
                             = Some iat -> iat <= jwt_time (demo_env 2000 false)).
  { intros iat [= <-]. simpl. lia. }
  assert (Hnbf : forall nbf, p_nbf (demo_payload "j1" 1000 2 (Some "mcp:invoke tools:read"))
                             = Some nbf -> nbf <= jwt_time (demo_env 2000 false)).
  { intros nbf [=]. }
  destruct (expired_token_rejected demo_load demo_from_public_bytes demo_verify
              demo_call_next demo_self (demo_env 2000 false) "good" (demo_world false)
              (MkJwt (MkHeader (Some "EdDSA") (Some "k1"))
                     (Some (demo_payload "j1" 1000 2 (Some "mcp:invoke tools:read"))) "key1")
              "k1" "key1"
              (demo_get_key (demo_env 2000 false) "k1" (demo_world false)).2 "/api"
              eq_refl eq_refl Hkid eq_refl eq_refl Hpath) as [_ Hgood].
  destruct (Hgood eq_refl (demo_payload "j1" 1000 2 (Some "mcp:invoke tools:read")) 1000
              eq_refl Hiat Hnbf eq_refl) as [Hexp _].
  exact (proj1 (proj2 (Hexp Hle))).
Defined.






Lemma dispatch_rejection_examples :
  demo_dispatch demo_self (demo_env 10 false)
    (MkRequest "/api" (Some "bearer good")) (demo_world false)
  = (Raise (Http unauthorized), demo_world false) /\
  demo_dispatch demo_self (demo_env 2000 false)
    (MkRequest "/api" (Some "Bearer good")) (demo_world false)
  = (Raise (Http token_expired),
     (demo_get_key (demo_env 2000 false) "k1" (demo_world false)).2) /\
  demo_dispatch demo_self (demo_env 60 false)
    (MkRequest "/api" (Some "Bearer forged")) (demo_world false)
  = (Raise (Http (invalid_token (ValueError_Validation InvalidSignatureError))),
     (demo_get_key (demo_env 60 false) "k1" (demo_world false)).2).
Proof.
  assert (Hpath : forall h, path (MkRequest "/api" h) ∉ skip_paths demo_self).
  { intros h. simpl. by intros ?%list_elem_of_singleton. }
  assert (Hkid : "k1" <> "") by discriminate.
  split; [|split].
  - exact (proj1 (dispatch_rejection_categories demo_load demo_from_public_bytes
                    demo_verify demo_call_next demo_self (demo_env 10 false)
                    (MkRequest "/api" (Some "bearer good")) (demo_world false)
                    (Hpath _))).
  - destruct (dispatch_rejection_categories demo_load demo_from_public_bytes
                demo_verify demo_call_next demo_self (demo_env 2000 false)
                (MkRequest "/api" (Some "Bearer good")) (demo_world false) (Hpath _))
      as (_ & Hdec & _).
    exact (Hdec (MkJwt (MkHeader (Some "EdDSA") (Some "k1"))
                       (Some (demo_payload "j1" 1000 2 (Some "mcp:invoke tools:read")))
                       "key1")
                "k1" "key1" _ ExpiredSignatureError eq_refl eq_refl Hkid eq_refl eq_refl).
  - destruct (dispatch_rejection_categories demo_load demo_from_public_bytes
                demo_verify demo_call_next demo_self (demo_env 60 false)
                (MkRequest "/api" (Some "Bearer forged")) (demo_world false) (Hpath _))
      as (_ & Hdec & _).
    exact (Hdec (MkJwt (MkHeader (Some "EdDSA") (Some "k1"))
                       (Some (demo_payload "j4" 50 2 None)) "other")
                "k1" "key1" _ InvalidSignatureError eq_refl eq_refl Hkid eq_refl eq_refl).
Defined.

(** * Further properties of the module *)

(** ** Scope strings *)

Lemma no_space_of_list (l : list ascii) :
  no_space (string_of_list_ascii l) = forallb (fun c => negb (is_space c)) l.
Proof. induction l as [|c l IH]; simpl; [done|]. by rewrite IH. Qed.

Lemma is_word_of_list (l : list ascii) :
  l <> [] -> forallb (fun c => negb (is_space c)) l = true ->
  is_word (string_of_list_ascii l) = true.
Proof.
  intros Hne Hall. unfold is_word. rewrite no_space_of_list, Hall.
  destruct l as [|c l]; [done|]. done.
Qed.

Lemma forallb_rev {A} (f : A -> bool) (l : list A) :
  forallb f (rev l) = forallb f l.
Proof.
  induction l as [|a l IH]; [done|]. simpl.
  rewrite forallb_app, IH. simpl. rewrite andb_true_r. apply andb_comm.
Qed.

Lemma split_go_words (s : string) (cur : list ascii) :
  forallb (fun c => negb (is_space c)) cur = true ->
  Forall (fun w => is_word w = true) (split_go s cur).
Proof.
  revert cur. induction s as [|c s IH]; intros cur Hcur; simpl.
  - destruct cur as [|a cur]; [constructor|].
    constructor; [|constructor].
    apply is_word_of_list.
    + intros Hnil. apply (f_equal List.length) in Hnil.
      rewrite length_rev in Hnil. done.
    + rewrite forallb_rev. done.
  - destruct (is_space c) eqn:Hc.
    + destruct cur as [|a cur]; [by apply IH|].
      constructor; [|by apply IH].
      apply is_word_of_list.
      * intros Hnil. apply (f_equal List.length) in Hnil.
        rewrite length_rev in Hnil. done.
      * rewrite forallb_rev. done.
    + apply IH. simpl. by rewrite Hc.
Qed.

(** X1.  Every scope that [ChittyIDTokenClaims.scopes] returns is a word: it
    is not empty and holds no whitespace; so [has_scope] is False for the
    empty string and for any text with whitespace in it, whatever the
    token. *)
Theorem scopes_are_words claims s :
  (forall w, w ∈ scopes claims -> is_word w = true) /\
  (is_word s = false -> has_scope claims s = false).
Proof.
  assert (Hw : forall w, w ∈ scopes claims -> is_word w = true).
  { unfold scopes. destruct (scope claims) as [sc|]; [|by intros w ?%not_elem_of_nil].
    case_decide; [by intros w ?%not_elem_of_nil|].
    intros w Hin. unfold split in Hin.
    pose proof (split_go_words sc [] eq_refl) as Hall.
    rewrite Forall_forall in Hall. by apply Hall. }
  split; [done|].
  intros Hs. unfold has_scope. apply bool_decide_eq_false_2.
  intros Hin. apply Hw in Hin. congruence.
Qed.

Lemma split_go_word (w s : string) (cur : list ascii) :
  no_space w = true ->
  split_go (w ++ s) cur = split_go s (rev (list_ascii_of_string w) ++ cur)%list.
Proof.
  revert cur. induction w as [|c w IH]; intros cur Hw; [done|].
  simpl in Hw. apply andb_true_iff in Hw as [Hc Hw].
  apply negb_true_iff in Hc.
  change (String c w ++ s) with (String c (w ++ s)). simpl. rewrite Hc.
  rewrite IH by done. by rewrite <- app_assoc.
Qed.

Lemma split_single_word (w : string) :
  is_word w = true -> split_go w [] = [w].
Proof.
  unfold is_word. intros [Hne Hw]%andb_true_iff.
  apply negb_true_iff, bool_decide_eq_false in Hne.
  assert (Happ : w = w ++ "").
  { clear. induction w as [|c w IH]; [done|].
    change (String c w ++ "") with (String c (w ++ "")). by rewrite <- IH. }
  rewrite Happ at 1. rewrite split_go_word by done. simpl.
  rewrite app_nil_r.
  destruct (rev (list_ascii_of_string w)) as [|a l] eqn:Hrev.
  - apply (f_equal List.length) in Hrev. rewrite length_rev in Hrev.
    destruct w; [done|]. done.
  - rewrite <- Hrev, rev_involutive. by rewrite string_of_list_ascii_of_string.
Qed.

Lemma split_join_space (words : list string) :
  Forall (fun w => is_word w = true) words -> split (join_space words) = words.
Proof.
  unfold split. induction words as [|w words IH]; intros Hall; [done|].
  apply Forall_cons in Hall as [Hw Hall].
  destruct words as [|w' words]; [by apply split_single_word|].
  change (join_space (w :: w' :: words))
    with (w ++ (String " " (join_space (w' :: words)))).
  pose proof Hw as Hw'. unfold is_word in Hw'.
  apply andb_true_iff in Hw' as [Hne Hns].
  rewrite split_go_word by done. simpl. rewrite app_nil_r.
  destruct (rev (list_ascii_of_string w)) as [|a l] eqn:Hrev.
  - apply (f_equal List.length) in Hrev. rewrite length_rev in Hrev.
    apply negb_true_iff, bool_decide_eq_false in Hne.
    destruct w; [done|]. done.
  - rewrite <- Hrev, rev_involutive, string_of_list_ascii_of_string.
    f_equal. by apply IH.
Qed.

(** X2.  Round trip of the scope string: for a list of words, a token whose
    [scope] is their join by single spaces has exactly these words as scopes,
    in the same order. *)
Theorem scopes_of_joined_words claims words :
  Forall (fun w => is_word w = true) words ->
  scope claims = Some (join_space words) ->
  scopes claims = words.
Proof.
  intros Hall Hs. unfold scopes. rewrite Hs.
  case_decide as Hempty.
  - destruct words as [|w words]; [done|].
    apply Forall_cons in Hall as [Hw _]. exfalso.
    unfold is_word in Hw. apply andb_true_iff in Hw as [Hne _].
    apply negb_true_iff, bool_decide_eq_false in Hne.
    destruct words as [|w' words]; simpl in Hempty; [done|].
    destruct w; [done|]. done.
  - by apply split_join_space.
Qed.

Lemma scopes_of_joined_words_example :
  scopes demo_good_claims = ["mcp:invoke"; "tools:read"].
Proof.
  apply (scopes_of_joined_words demo_good_claims ["mcp:invoke"; "tools:read"]).
  - repeat constructor.
  - reflexivity.
Defined.

(** ** The replay stores *)

(** X3.  A memory admission sweeps completely: after [check_and_set] has
    admitted an identifier in the process-local store, every entry left in
    the cache has an expiry that is not below the clock of that call, and is
    either the new entry or an entry that was there before, unchanged. *)
Theorem memory_admission_leaves_live_entries env jti w w' k v :
  redis_client (jti_cache w) = false ->
  check_and_set env jti w = (Ok true, w') ->
  _memory_cache (jti_cache w') !! k = Some v ->
  jti_time env <= v /\
  ((k = jti /\ v = jti_time env + ttl (jti_cache w)) \/
   (k <> jti /\ _memory_cache (jti_cache w) !! k = Some v)).
Proof.
  intros Hc Hcas Hk. rewrite check_and_set_local in Hcas by done.
  destruct (_memory_cache (jti_cache w) !! jti) as [vj|] eqn:Hj.
  { rewrite memory_check_and_set_present in Hcas by eauto. done. }
  rewrite memory_check_and_set_absent in Hcas by done.
  injection Hcas as <-. simpl in Hk. rewrite lookup_admitted_map in Hk.
  destruct (decide (k = jti)) as [->|Hne].
  - rewrite lookup_insert_eq in Hk. case_decide; [done|].
    injection Hk as <-. split; [lia|]. by left.
  - rewrite lookup_insert_ne in Hk by done.
    destruct (_memory_cache (jti_cache w) !! k) as [v0|] eqn:Hk0; [|done].
    case_decide; [done|]. injection Hk as <-. split; [lia|]. by right.
Qed.

Lemma memory_admission_example :
  jti_time (demo_env 10 false) <= 3610.
Proof.
  assert (Hcas : check_and_set (demo_env 10 false) "a" (demo_world false)
                 = (Ok true, (check_and_set (demo_env 10 false) "a" (demo_world false)).2))
    by (vm_compute; reflexivity).
  assert (Hk : _memory_cache
                 (jti_cache (check_and_set (demo_env 10 false) "a" (demo_world false)).2)
               !! "a" = Some 3610) by (vm_compute; reflexivity).
  exact (proj1 (memory_admission_leaves_live_entries (demo_env 10 false) "a"
                  (demo_world false) _ "a" 3610 eq_refl Hcas Hk)).
Defined.

(** X4.  The memory store records an admitted identifier exactly when the
    retention time is not negative: with a negative [ttl] the new entry is
    swept by the very call that wrote it, so the identifier is admitted again
    by the next call. *)
Theorem memory_records_iff_ttl_not_negative env jti w :
  redis_client (jti_cache w) = false ->
  _memory_cache (jti_cache w) !! jti = None ->
  (check_and_set env jti w).1 = Ok true /\
  _memory_cache (jti_cache (check_and_set env jti w).2) !! jti
  = (if decide (0 <= ttl (jti_cache w))
     then Some (jti_time env + ttl (jti_cache w)) else None).
Proof.
  intros Hc Hj. rewrite check_and_set_local by done.
  rewrite memory_check_and_set_absent by done. simpl. split; [done|].
  rewrite lookup_admitted_map, lookup_insert_eq.
  repeat case_decide; try done; lia.
Qed.

Lemma negative_ttl_example :
  _memory_cache
    (jti_cache (check_and_set (demo_env 10 false) "a"
                  (MkWorld (JWKSClient_init 3600) (MkJTICache (-1) false ∅) ∅ [])).2)
  !! "a" = None.
Proof.
  exact (proj2 (memory_records_iff_ttl_not_negative (demo_env 10 false) "a"
                  (MkWorld (JWKSClient_init 3600) (MkJTICache (-1) false ∅) ∅ [])
                  eq_refl eq_refl)).
Defined.

(** X5.  Calls that follow one another on the shared store admit once.
    After [check_and_set] has admitted an identifier through Redis, a later
    call for it, made before the key expires and with EXISTS answering,
    returns False; it sends that one EXISTS and writes nothing. *)
Theorem redis_sequential_calls_admit_once env1 env2 jti w w1 :
  redis_client (jti_cache w) = true ->
  exists_raises env1 = false -> setex_raises env1 = false ->
  exists_raises env2 = false ->
  0 < ttl (jti_cache w) ->
  redis_time env2 < redis_time env1 + ttl (jti_cache w) ->
  check_and_set env1 jti w = (Ok true, w1) ->
  check_and_set env2 jti w1
  = (Ok false, log (RedisExists ("chittyid:jti:" ++ jti)) w1).
Proof.
  intros Hc He1 Hs1 He2 Httl Hwin Hcas.
  pose proof (admission_marks env1 jti w w1 Hcas) as Hm.
  unfold marked, retention_end in Hm.
  destruct (check_and_set_config env1 jti w) as [Hc1 _].
  rewrite Hcas in Hc1. simpl in Hc1.
  rewrite Hc1, Hc in Hm.
  assert (Hdb : redis_db w1 !! ("chittyid:jti:" ++ jti)
                = Some (redis_time env1 + ttl (jti_cache w))).
  { apply Hm; [done|lia]. }
  rewrite check_and_set_shared by congruence.
  rewrite redis_check_and_set_eq. cbv zeta.
  rewrite He2. unfold redis_exists. rewrite Hdb.
  by rewrite bool_decide_eq_true_2 by lia.
Qed.

Lemma redis_sequential_calls_example :
  (check_and_set (demo_env 20 false) "a"
     (check_and_set (demo_env 10 false) "a" (demo_world true)).2).1 = Ok false.
Proof.
  assert (Hcas : check_and_set (demo_env 10 false) "a" (demo_world true)
                 = (Ok true, (check_and_set (demo_env 10 false) "a" (demo_world true)).2))
    by (vm_compute; reflexivity).
  assert (Httl : 0 < ttl (jti_cache (demo_world true))) by (simpl; lia).
  assert (Hwin : redis_time (demo_env 20 false)
                 < redis_time (demo_env 10 false) + ttl (jti_cache (demo_world true)))
    by (simpl; lia).
  rewrite (redis_sequential_calls_admit_once (demo_env 10 false) (demo_env 20 false) "a"
             (demo_world true) _ eq_refl eq_refl eq_refl eq_refl Httl Hwin Hcas).
  reflexivity.
Defined.

(** ** The key cache *)

(** X6.  After a fetch has stored a key set, a later [get_jwks] is served
    from the cache, with no request and no change, exactly while the age of
    the set is below [cache_ttl] and the set is not the empty object; an
    empty object is fetched again by every call. *)
Theorem fetched_key_set_is_cached env1 env2 w doc :
  cache_fresh env1 w = false ->
  http_response env1 = Some doc ->
  cache_fresh env2 (get_jwks env1 w).2
  = bool_decide (jwks_time env2 - jwks_time env1 < cache_ttl (jwks_client w))
    && jwks_truthy doc /\
  (cache_fresh env2 (get_jwks env1 w).2 = true ->
   get_jwks env2 (get_jwks env1 w).2 = (Ok doc, (get_jwks env1 w).2)).
Proof.
  intros Hf Hr.
  assert (Hw : (get_jwks env1 w).2
               = set_jwks_client
                   (fun c => MkJWKSClient (cache_ttl c) doc (jwks_time env1))
                   (log HttpGet w)).
  { by rewrite get_jwks_eq, Hf, Hr. }
  rewrite Hw. split; [done|].
  intros Hfresh. by rewrite get_jwks_eq, Hfresh.
Qed.

Lemma fetched_key_set_is_cached_example :
  get_jwks (demo_env 100 false) (get_jwks (demo_env 10 false) (demo_world false)).2
  = (Ok demo_jwks, (get_jwks (demo_env 10 false) (demo_world false)).2).
Proof.
  apply (proj2 (fetched_key_set_is_cached (demo_env 10 false) (demo_env 100 false)
                  (demo_world false) demo_jwks eq_refl eq_refl)).
  vm_compute. reflexivity.
Defined.

Section MoreFacts.

Context {PublicKey : Type}.
Variable jws_load : string -> option Jwt.
Variable from_public_bytes : string -> option PublicKey.
Variable ed25519_verify : PublicKey -> Jwt -> bool.

Local Abbreviation key_loop := (key_loop PublicKey from_public_bytes).
Local Abbreviation get_key := (get_key PublicKey from_public_bytes).
Local Abbreviation jwt_decode := (jwt_decode PublicKey jws_load ed25519_verify).
Local Abbreviation authenticate :=
  (authenticate PublicKey jws_load from_public_bytes ed25519_verify).
Local Abbreviation verify_token :=
  (verify_token PublicKey jws_load from_public_bytes ed25519_verify).

(** X7.  [get_key] serves a key only from an entry of the key set that
    carries the requested identifier, declares EdDSA and has a non-empty [x]
    that decodes to that key. *)
Theorem served_key_comes_from_matching_entry kid (l : list JWK) key :
  key_loop kid l = Ok (Some key) ->
  exists k x,
    k ∈ l /\ jwk_kid k = Some kid /\ jwk_alg k = Some "EdDSA" /\
    jwk_x k = Some x /\ x <> "" /\ from_public_bytes x = Some key.
Proof.
  induction l as [|k l IH]; simpl; [done|].
  destruct (bool_decide (jwk_kid k = Some kid)) eqn:Hkid;
    destruct (bool_decide (jwk_alg k = Some "EdDSA")) eqn:Halg; simpl;
    try (intros H; destruct (IH H) as (k' & x & Hin & Hrest);
         exists k', x; split; [by right|done]).
  apply bool_decide_eq_true in Hkid, Halg.
  destruct (jwk_x k) as [x|] eqn:Hx.
  - case_bool_decide as Hempty.
    + intros H; destruct (IH H) as (k' & x' & Hin & Hrest).
      exists k', x'. split; [by right|done].
    + destruct (from_public_bytes x) as [key0|] eqn:Hdec; [|done].
      intros [= <-]. exists k, x. split; [by left|done].
  - intros H; destruct (IH H) as (k' & x' & Hin & Hrest).
    exists k', x'. split; [by right|done].
Qed.

Lemma validate_claims_passed p iss0 aud0 now :
  validate_claims p iss0 aud0 now = None ->
  p_iss p = Some iss0 /\
  (forall e, p_exp p = Some e -> now < e) /\
  (forall n, p_nbf p = Some n -> n <= now) /\
  (forall i, p_iat p = Some i -> i <= now) /\
  match aud0 with
  | Some expected =>
      exists a, p_aud p = Some a /\ aud_falsy a = false /\ expected ∈ aud_values a
  | None => forall a, p_aud p = Some a -> aud_falsy a = true
  end.
Proof.
  unfold validate_claims.
  destruct (p_iat p) as [i|]; [case_bool_decide as Hi; [done|]|];
    (destruct (p_nbf p) as [n|]; [case_bool_decide as Hn; [done|]|]);
    (destruct (p_exp p) as [e|]; [case_bool_decide as He; [done|]|]);
    (destruct (p_iss p) as [i0|]; [|done]);
    (case_bool_decide as Hiss; [|done]); subst; simpl;
    (destruct aud0 as [expected|]; destruct (p_aud p) as [a|]; try done);
    try (destruct (aud_falsy a) eqn:Hf; try done);
    try (case_bool_decide as Hin; [|done]);
    intros _; repeat split; try (intros; simplify_eq; lia); try done;
    try (by exists a); try (by intros ? [= <-]).
Qed.

Lemma authenticate_passed self env token w claims w' :
  authenticate self env token w = (Ok claims, w') ->
  exists t p kid key,
    jws_load token = Some t /\ payload t = Some p /\ mk_claims p = Some claims /\
    h_kid (header t) = Some kid /\ kid <> "" /\
    get_key env kid w = (Ok (Some key), w') /\
    h_alg (header t) = Some "EdDSA" /\ ed25519_verify key t = true /\
    validate_claims p (issuer self) (audience self) (jwt_time env) = None.
Proof.
  unfold authenticate, jwt_decode.
  destruct (jws_load token) as [t|] eqn:Ht; [|done].
  destruct (h_kid (header t)) as [kid|] eqn:Hkid; [|done].
  case_bool_decide as Hne; [done|].
  unfold bind.
  destruct (get_key env kid w) as [[[key|]|e] w1] eqn:Hk; [|done|done].
  case_bool_decide as Halg; [|done]. cbn [negb].
  destruct (ed25519_verify key t) eqn:Hsig; [|done]. cbn [negb].
  destruct (payload t) as [p|] eqn:Hp; [|done].
  destruct (validate_claims p (issuer self) (audience self) (jwt_time env))
    as [e|] eqn:Hval.
  { destruct e; done. }
  destruct (mk_claims p) as [c|] eqn:Hc; [|done].
  intros [= <- <-]. exists t, p, kid, key. done.
Qed.

Lemma mk_claims_fields p claims :
  mk_claims p = Some claims ->
  p_iss p = Some (iss claims) /\ p_exp p = Some (exp claims) /\
  p_aud p = Some (aud claims) /\ p_nbf p = nbf claims /\ p_iat p = Some (iat claims).
Proof.
  unfold mk_claims. destruct (p_unknown p); [done|].
  destruct (p_iss p), (p_sub p), (p_aud p), (p_exp p), (p_iat p), (p_jti p), (p_lvl p);
    try done.
  by intros [= <-].
Qed.

Lemma policy_passed self claims c :
  policy self claims = Ok c ->
  c = claims /\ min_trust_level self <= lvl claims /\
  forall s, s ∈ required_scopes self -> has_scope claims s = true.
Proof.
  unfold policy. case_bool_decide as Hlvl; [done|].
  destruct (negb (bool_decide (required_scopes self = []))
            && negb (bool_decide
                       (filter (fun s => s ∉ scopes claims) (required_scopes self) = [])))
    eqn:Hsc; [done|].
  intros [= <-]. split; [done|]. split; [lia|].
  intros s Hs. unfold has_scope. apply bool_decide_eq_true_2.
  apply andb_false_iff in Hsc as [Hnil|Hmiss].
  - apply negb_false_iff, bool_decide_eq_true in Hnil.
    rewrite Hnil in Hs. by apply not_elem_of_nil in Hs.
  - apply negb_false_iff, bool_decide_eq_true in Hmiss.
    destruct (decide (s ∈ scopes claims)) as [|Hout]; [done|].
    assert (Hin : s ∈ filter (fun s => s ∉ scopes claims) (required_scopes self)).
    { by apply list_elem_of_filter. }
    rewrite Hmiss in Hin. by apply not_elem_of_nil in Hin.
Qed.

(** X8.  What an accepted token guarantees.  When [verify_token] returns
    claims, the token declares EdDSA and names a key that the key set
    served, its signature verifies under that key, the claims are those of
    the token, its issuer is the configured one, its [exp] is above the clock
    of [jwt.decode] and its [nbf], if any, is not, its level reaches
    [min_trust_level] and every required scope is granted. *)
Theorem accepted_token_guarantees self env token w claims w' :
  verify_token self env token w = (Ok claims, w') ->
  exists t p kid key,
    jws_load token = Some t /\ payload t = Some p /\ mk_claims p = Some claims /\
    h_alg (header t) = Some "EdDSA" /\
    h_kid (header t) = Some kid /\
    (get_key env kid w).1 = Ok (Some key) /\ ed25519_verify key t = true /\
    iss claims = issuer self /\
    jwt_time env < exp claims /\
    (forall n, nbf claims = Some n -> n <= jwt_time env) /\
    min_trust_level self <= get_trust_level claims /\
    (forall s, s ∈ required_scopes self -> has_scope claims s = true).
Proof.
  intros Hv.
  destruct (verify_token_admitted jws_load from_public_bytes ed25519_verify
              self env token w _ _ Hv) as (c & wa & Ha & _ & Hp); [eauto|].
  apply policy_passed in Hp as (-> & Hlvl & Hsc).
  apply authenticate_passed in Ha
    as (t & p & kid & key & Ht & Hpl & Hc & Hkid & _ & Hk & Halg & Hsig & Hval).
  apply validate_claims_passed in Hval as (Hiss & Hexp & Hnbf & _ & _).
  apply mk_claims_fields in Hc as Hfields.
  destruct Hfields as (Hi & He & _ & Hn & _).
  exists t, p, kid, key. repeat split; try done.
  - by rewrite Hk.
  - congruence.
  - by apply Hexp.
  - intros n Hn'. apply Hnbf. congruence.
Qed.

(** X9.  With no audience configured (the default of the constructor),
    [verify_token] accepts no token whose [aud] is a non-empty string or a
    non-empty list: PyJWT rejects a token that names an audience nobody asked
    for, and a token without [aud] cannot become [ChittyIDTokenClaims]. *)
Theorem no_configured_audience_accepts_only_empty_aud self env token w claims w' :
  audience self = None ->
  verify_token self env token w = (Ok claims, w') ->
  aud_falsy (aud claims) = true.
Proof.
  intros Haud Hv.
  destruct (verify_token_admitted jws_load from_public_bytes ed25519_verify
              self env token w _ _ Hv) as (c & wa & Ha & _ & Hp); [eauto|].
  apply policy_passed in Hp as (-> & _ & _).
  apply authenticate_passed in Ha
    as (t & p & kid & key & _ & _ & Hc & _ & _ & _ & _ & _ & Hval).
  apply validate_claims_passed in Hval as (_ & _ & _ & _ & Ha).
  rewrite Haud in Ha. apply Ha.
  by apply mk_claims_fields in Hc as (_ & _ & ? & _).
Qed.

Lemma check_and_set_refusal_frame env tid w w' :
  check_and_set env tid w = (Ok false, w') ->
  jti_cache w' = jti_cache w /\ redis_db w' = redis_db w.
Proof.
  assert (Hmem : forall w0 w1, memory_check_and_set env tid w0 = (Ok false, w1) -> w1 = w0).
  { intros w0 w1. destruct (_memory_cache (jti_cache w0) !! tid) as [v|] eqn:Hj.
    - rewrite memory_check_and_set_present by eauto. by intros [= <-].
    - by rewrite memory_check_and_set_absent. }
  destruct (redis_client (jti_cache w)) eqn:Hc.
  - rewrite check_and_set_shared by done. rewrite redis_check_and_set_eq. cbv zeta.
    destruct (exists_raises env).
    { intros ->%Hmem. done. }
    destruct (redis_exists _ _ _).
    { by intros [= <-]. }
    destruct (setex_raises env).
    { intros ->%Hmem. done. }
    destruct (redis_setex _ _ _ _); [done|].
    intros ->%Hmem. done.
  - rewrite check_and_set_local by done. by intros ->%Hmem.
Qed.



End MoreFacts.

(** ** The gateway and the route-level helpers *)

Section Gateway.

Context {PublicKey : Type}.
Variable jws_load : string -> option Jwt.
Variable from_public_bytes : string -> option PublicKey.
Variable ed25519_verify : PublicKey -> Jwt -> bool.
Context {Response : Type}.
Variable call_next : Request -> option ChittyIDTokenClaims -> Result Response.

Local Abbreviation verify_token :=
  (verify_token PublicKey jws_load from_public_bytes ed25519_verify).
Local Abbreviation dispatch :=
  (dispatch PublicKey jws_load from_public_bytes ed25519_verify Response call_next).

(** X12.  What happens after a token is accepted.  For a request on a path
    that is not exempt, with the header "Bearer " followed by the token:
    when [verify_token] returns claims and the callback, if any, does not
    raise, the application is called with these claims attached; its response
    is returned, an HTTPException it raises is passed on, and any other
    exception it raises is reported as a 401 [invalid_token], on the world
    that the verification left. *)
Theorem accepted_request_outcome self env p token w claims w' :
  p ∉ skip_paths self ->
  (forall callback, on_token_verified self = Some callback -> callback claims = None) ->
  verify_token self env token w = (Ok claims, w') ->
  dispatch self env (MkRequest p (Some ("Bearer " ++ token))) w
  = match call_next (MkRequest p (Some ("Bearer " ++ token))) (Some claims) with
    | Ok response => (Ok response, w')
    | Raise (Http h) => (Raise (Http h), w')
    | Raise (Py e) => (Raise (Http (invalid_token e)), w')
    end.
Proof.
  intros Hp Hcb Hv. unfold dispatch. cbn [path authorization].
  rewrite bool_decide_eq_false_2 by done.
  destruct (bearer_header_roundtrip token) as (-> & -> & ->).
  cbn [orb negb]. unfold try_except, bind. rewrite Hv.
  destruct (on_token_verified self) as [callback|].
  - rewrite (Hcb callback eq_refl). unfold ret, lift.
    by destruct (call_next _ _) as [r|[h|e]].
  - unfold ret, lift. by destruct (call_next _ _) as [r|[h|e]].
Qed.

(** A response comes only from the application. *)
Lemma dispatch_ok_inv self env request w response w' :
  path request ∉ skip_paths self ->
  dispatch self env request w = (Ok response, w') ->
  exists auth_header claims,
    authorization request = Some auth_header /\
    String.prefix "Bearer " auth_header = true /\
    verify_token self env (drop_chars 7 auth_header) w = (Ok claims, w') /\
    call_next request (Some claims) = Ok response.
Proof.
  intros Hp. unfold dispatch. rewrite bool_decide_eq_false_2 by done.
  destruct (authorization request) as [auth_header|]; [|done].
  destruct (bool_decide (auth_header = "") || negb (String.prefix "Bearer " auth_header))
    eqn:Hb; [done|].
  apply orb_false_iff in Hb as [_ Hpre]. apply negb_false_iff in Hpre.
  unfold try_except, bind.
  destruct (verify_token self env (drop_chars 7 auth_header) w) as [[claims|e] w1] eqn:Hv.
  - destruct (on_token_verified self) as [callback|].
    + destruct (callback claims) as [e|].
      * unfold raise. destruct e; done.
      * unfold ret, lift. destruct (call_next request (Some claims)) as [r|[h|e]] eqn:Hn;
          try done.
        intros [= <- <-]. by exists auth_header, claims.
    + unfold ret, lift. destruct (call_next request (Some claims)) as [r|[h|e]] eqn:Hn;
        try done.
      intros [= <- <-]. by exists auth_header, claims.
  - destruct e; done.
Qed.

(** X13.  No response without an accepted token.  On a path that is not
    exempt, [dispatch] returns a response only when the header starts with
    "Bearer ", [verify_token] returned claims for the rest of the header, and
    the application produced that response with exactly these claims
    attached to the request. *)
Theorem response_requires_accepted_token self env request w response w' :
  path request ∉ skip_paths self ->
  dispatch self env request w = (Ok response, w') ->
  exists auth_header claims,
    authorization request = Some auth_header /\
    String.prefix "Bearer " auth_header = true /\
    verify_token self env (drop_chars 7 auth_header) w = (Ok claims, w') /\
    call_next request (Some claims) = Ok response /\
    get_chitty_id_claims (Some claims) = inr claims.
Proof.
  intros Hp Hd.
  destruct (dispatch_ok_inv self env request w response w' Hp Hd)
    as (auth_header & claims & Ha & Hpre & Hv & Hn).
  by exists auth_header, claims.
Qed.

End Gateway.

Section DecoratedHandler.

Context {PublicKey : Type}.
Variable jws_load : string -> option Jwt.
Variable from_public_bytes : string -> option PublicKey.
Variable ed25519_verify : PublicKey -> Jwt -> bool.
Context {R : Type}.
(** A route handler that takes the request, and the scopes its decorator
    asks for. *)
Variable handler : Request -> R.
Variable scopes_wanted : list string.

Local Abbreviation dispatch :=
  (dispatch PublicKey jws_load from_public_bytes ed25519_verify
            (RouteError + R) (decorated_app scopes_wanted handler)).

(** X14.  The decorator does not check what the middleware did not attach.
    On an exempt path [dispatch] calls the application without reading the
    header and without touching the world, no claims are attached, and a
    handler decorated with [require_scopes] runs whatever scopes it asks
    for; the dependency [get_chitty_id_claims] would raise its 401 there. *)
Theorem decorated_handler_unchecked_on_exempt_path self env request w :
  path request ∈ skip_paths self ->
  dispatch self env request w = (Ok (inr (handler request)), w) /\
  get_chitty_id_claims None = inl AuthenticationRequired.
Proof.
  intros Hp. unfold dispatch.
  rewrite bool_decide_eq_true_2 by done. done.
Qed.

End DecoratedHandler.

Lemma require_scopes_granted {A : Type} (scopes_wanted : list string)
    (func : list Arg -> A) (args : list Arg) (claims : ChittyIDTokenClaims) :
  first_request args = Some (Some claims) ->
  (forall s, s ∈ scopes_wanted -> has_scope claims s = true) ->
  require_scopes scopes_wanted func args = inr (func args).
Proof.
  intros Hreq Hall. unfold require_scopes. rewrite Hreq.
  destruct (filter (fun s => negb (has_scope claims s)) scopes_wanted) as [|s l] eqn:Hf;
    [done|].
  exfalso.
  assert (Hin : s ∈ filter (fun s => negb (has_scope claims s)) scopes_wanted).
  { rewrite Hf. by left. }
  apply list_elem_of_filter in Hin as [Hneg Hin].
  rewrite (Hall s Hin) in Hneg. done.
Qed.

(** X15.  [require_scopes] rejects exactly when the claims attached to the
    request lack one of the scopes it asks for, and the scopes it reports are
    exactly the ones that are asked for and not granted; otherwise the
    handler is called with its arguments. *)
Theorem require_scopes_reports_missing {A : Type} (scopes_wanted : list string)
    (func : list Arg -> A) (args : list Arg) (claims : ChittyIDTokenClaims) :
  first_request args = Some (Some claims) ->
  ((forall s, s ∈ scopes_wanted -> has_scope claims s = true) ->
   require_scopes scopes_wanted func args = inr (func args)) /\
  (forall s0, s0 ∈ scopes_wanted -> has_scope claims s0 = false ->
   exists missing,
     require_scopes scopes_wanted func args = inl (MissingRequiredScopes missing) /\
     forall s, s ∈ missing <-> s ∈ scopes_wanted /\ has_scope claims s = false).
Proof.
  intros Hreq. split; [by apply require_scopes_granted|].
  intros s0 Hin0 Hno. unfold require_scopes. rewrite Hreq.
  exists (filter (fun s => negb (has_scope claims s)) scopes_wanted).
  split.
  - rewrite bool_decide_eq_false_2; [done|].
    intros Hnil.
    assert (Hin : s0 ∈ filter (fun s => negb (has_scope claims s)) scopes_wanted).
    { apply list_elem_of_filter. by rewrite Hno. }
    rewrite Hnil in Hin. by apply not_elem_of_nil in Hin.
  - intros s. rewrite list_elem_of_filter.
    destruct (has_scope claims s); simpl.
    + split; [intros [[] _]|intros [_ [=]]].
    + split; [by intros [_ ?]|by intros [? _]].
Qed.

Lemma require_scopes_example :
  require_scopes ["mcp:invoke"] (fun _ => tt) [ArgOther; ArgRequest (Some demo_good_claims)]
  = inr tt.
Proof.
  apply (proj1 (require_scopes_reports_missing ["mcp:invoke"] (fun _ => tt)
                  [ArgOther; ArgRequest (Some demo_good_claims)] demo_good_claims
                  eq_refl)).
  intros s Hs. apply list_elem_of_singleton in Hs. subst s. reflexivity.
Defined.

Section DecoratedHandlerBehindPolicy.

Context {PublicKey : Type}.
Variable jws_load : string -> option Jwt.
Variable from_public_bytes : string -> option PublicKey.
Variable ed25519_verify : PublicKey -> Jwt -> bool.
Context {R : Type}.
Variable handler : Request -> R.
Variable scopes_wanted : list string.

Local Abbreviation dispatch :=
  (dispatch PublicKey jws_load from_public_bytes ed25519_verify
            (RouteError + R) (decorated_app scopes_wanted handler)).

(** X16.  Behind the middleware the decorator is redundant for scopes the
    middleware already requires: on a path that is not exempt, when every
    scope the decorator asks for is among [required_scopes], a response of
    [dispatch] is always the handler's, never the decorator's 403. *)
Theorem decorator_redundant_behind_policy self env request w response w' :
  path request ∉ skip_paths self ->
  (forall s, s ∈ scopes_wanted -> s ∈ required_scopes self) ->
  dispatch self env request w = (Ok response, w') ->
  response = inr (handler request).
Proof.
  intros Hp Hsub Hd.
  destruct (dispatch_ok_inv jws_load from_public_bytes ed25519_verify
              (decorated_app scopes_wanted handler) self env request w response w' Hp Hd)
    as (auth_header & claims & _ & _ & Hv & Hn).
  destruct (verify_token_admitted jws_load from_public_bytes ed25519_verify
              self env _ w _ _ Hv) as (c & wa & _ & _ & Hpol); [eauto|].
  apply policy_passed in Hpol as (-> & _ & Hsc).
  unfold decorated_app in Hn. injection Hn as <-.
  apply (require_scopes_granted scopes_wanted (fun _ => handler request)
           [ArgRequest (Some c)] c eq_refl).
  intros s Hs. by apply Hsc, Hsub.
Qed.

End DecoratedHandlerBehindPolicy.

(** ** The further properties on concrete runs *)

Lemma served_key_example :
  exists k x,
    k ∈ default [] (keys demo_jwks) /\ jwk_kid k = Some "k1" /\
    jwk_alg k = Some "EdDSA" /\ jwk_x k = Some x /\ x <> "" /\
    demo_from_public_bytes x = Some "key1".
Proof.
  exact (served_key_comes_from_matching_entry demo_from_public_bytes "k1"
           (default [] (keys demo_jwks)) "key1" eq_refl).
Defined.

Lemma accepted_token_example :
  min_trust_level demo_self <= get_trust_level demo_good_claims.
Proof.
  assert (Hv : demo_verify_token demo_self (demo_env 10 false) "good" (demo_world false)
               = (Ok demo_good_claims,
                  (demo_verify_token demo_self (demo_env 10 false) "good"
                                     (demo_world false)).2))
    by (vm_compute; reflexivity).
  destruct (accepted_token_guarantees demo_load demo_from_public_bytes demo_verify
              demo_self (demo_env 10 false) "good" (demo_world false) _ _ Hv)
    as (t & p & kid & key & _ & _ & _ & _ & _ & _ & _ & _ & _ & _ & Hlvl & _).
  exact Hlvl.
Defined.

Lemma open_audience_example :
  aud_falsy (aud demo_open_claims) = true.
Proof.
  assert (Hv : verify_token string demo_load_open demo_from_public_bytes demo_verify
                 demo_open_self (demo_env 10 false) "open" (demo_world false)
               = (Ok demo_open_claims,
                  (verify_token string demo_load_open demo_from_public_bytes demo_verify
                     demo_open_self (demo_env 10 false) "open" (demo_world false)).2))
    by (vm_compute; reflexivity).
  exact (no_configured_audience_accepts_only_empty_aud demo_load_open
           demo_from_public_bytes demo_verify demo_open_self (demo_env 10 false)
           "open" (demo_world false) _ _ eq_refl Hv).
Defined.



Lemma accepted_request_example :
  (demo_dispatch demo_self (demo_env 10 false)
     (MkRequest "/api" (Some ("Bearer " ++ "good"))) (demo_world false)).1 = Ok tt.
Proof.
  assert (Hp : "/api" ∉ skip_paths demo_self).
  { simpl. by intros ?%list_elem_of_singleton. }
  assert (Hcb : forall callback, on_token_verified demo_self = Some callback ->
                                 callback demo_good_claims = None) by (intros cb [=]).
  assert (Hv : demo_verify_token demo_self (demo_env 10 false) "good" (demo_world false)
               = (Ok demo_good_claims,
                  (demo_verify_token demo_self (demo_env 10 false) "good"
                                     (demo_world false)).2))
    by (vm_compute; reflexivity).
  rewrite (accepted_request_outcome demo_load demo_from_public_bytes demo_verify
             demo_call_next demo_self (demo_env 10 false) "/api" "good"
             (demo_world false) demo_good_claims _ Hp Hcb Hv).
  reflexivity.
Defined.

Lemma response_requires_token_example :
  exists claims,
    demo_call_next (MkRequest "/api" (Some "Bearer good")) (Some claims) = Ok tt.
Proof.
  assert (Hp : path (MkRequest "/api" (Some "Bearer good")) ∉ skip_paths demo_self).
  { simpl. by intros ?%list_elem_of_singleton. }
  assert (Hd : demo_dispatch demo_self (demo_env 10 false)
                 (MkRequest "/api" (Some "Bearer good")) (demo_world false)
               = (Ok tt,
                  (demo_dispatch demo_self (demo_env 10 false)
                     (MkRequest "/api" (Some "Bearer good")) (demo_world false)).2))
    by (vm_compute; reflexivity).
  destruct (response_requires_accepted_token demo_load demo_from_public_bytes
              demo_verify demo_call_next demo_self (demo_env 10 false)
              (MkRequest "/api" (Some "Bearer good")) (demo_world false) tt _ Hp Hd)
    as (auth_header & claims & _ & _ & _ & Hn & _).
  by exists claims.
Defined.

Lemma exempt_path_example :
  dispatch string demo_load demo_from_public_bytes demo_verify (RouteError + unit)
    (decorated_app ["admin"] (fun _ => tt)) demo_self (demo_env 10 false)
    (MkRequest "/health" None) (demo_world false)
  = (Ok (inr tt), demo_world false).
Proof.
  assert (Hp : path (MkRequest "/health" None) ∈ skip_paths demo_self).
  { simpl. by apply list_elem_of_singleton. }
  exact (proj1 (decorated_handler_unchecked_on_exempt_path demo_load
                  demo_from_public_bytes demo_verify (fun _ => tt) ["admin"]
                  demo_self (demo_env 10 false) (MkRequest "/health" None)
                  (demo_world false) Hp)).
Defined.

Lemma decorator_redundant_example :
  (dispatch string demo_load demo_from_public_bytes demo_verify (RouteError + unit)
     (decorated_app ["tools:read"] (fun _ => tt)) demo_self (demo_env 10 false)
     (MkRequest "/api" (Some "Bearer good")) (demo_world false)).1
  = Ok (inr tt).
Proof.
  assert (Hp : path (MkRequest "/api" (Some "Bearer good")) ∉ skip_paths demo_self).
  { simpl. by intros ?%list_elem_of_singleton. }
  assert (Hsub : forall s, s ∈ ["tools:read"] -> s ∈ required_scopes demo_self).
  { intros s ->%list_elem_of_singleton. simpl. right. by left. }
  destruct (dispatch string demo_load demo_from_public_bytes demo_verify
              (RouteError + unit) (decorated_app ["tools:read"] (fun _ => tt))
              demo_self (demo_env 10 false) (MkRequest "/api" (Some "Bearer good"))
              (demo_world false)) as [[response|e] w'] eqn:Hd.
  - simpl. f_equal.
    exact (decorator_redundant_behind_policy demo_load demo_from_public_bytes
             demo_verify (fun _ => tt) ["tools:read"] demo_self (demo_env 10 false)
             (MkRequest "/api" (Some "Bearer good")) (demo_world false) response w'
             Hp Hsub Hd).
  - vm_compute in Hd. discriminate.
Defined.
